(** * edge-agent: connection lifecycle, command routing and gating

    A shallow embedding of the Go packages [client], [tcp] and [websocket]
    of the edge agent, with the properties of the supervisor loop, of the
    two transports and of command processing.

    Conventions.
    - Go's [int], [int64] and [time.Duration] are 64-bit two's complement
      integers: they are [Z] values, and the arithmetic of the source on
      variables is followed by [wrap64].
    - [float64] values are IEEE-754 binary64 numbers, given by the
      [spec_float] type of the Standard Library.
    - [interface{}] values are the inductive type [value]; Go maps with
      string keys are [gmap string _].
    - [encoding/json], the system clock, the network and the command
      executors are outside the repository: decoders, encoders and
      executors are section variables, clock readings and the results of
      network operations are arguments of the functions that use them. *)

From Stdlib Require Import ZArith QArith Qpower Qminmax String List Lia.
From Stdlib Require Import Floats.SpecFloat.
From stdpp Require Import base option list gmap strings.

Set Warnings "-register-all".
Local Open Scope string_scope.
Local Open Scope list_scope.
Local Open Scope Z_scope.

(** ** Machine integers and durations *)

Module int64.

Definition min_int : Z := - 2 ^ 63.
Definition max_int : Z := 2 ^ 63 - 1.

(** Two's complement wrap-around of a 64-bit signed integer. *)
Definition wrap64 (z : Z) : Z := (z + 2 ^ 63) mod 2 ^ 64 - 2 ^ 63.

Definition in_range (z : Z) : Prop := min_int <= z <= max_int.

End int64.

Module time.

(** [time.Duration] counts nanoseconds. *)
Definition Nanosecond : Z := 1.
Definition Millisecond : Z := 1000000.
Definition Second : Z := 1000000000.

(** The integer part of a finite binary64 number, rounded toward zero;
    [None] for infinities and NaN. *)
Definition float64_trunc (f : spec_float) : option Z :=
  match f with
  | S754_zero _ => Some 0
  | S754_finite s m e =>
      let mag := if 0 <=? e then Z.pos m * 2 ^ e else Z.pos m / 2 ^ (- e) in
      Some (if s then - mag else mag)
  | S754_infinity _ | S754_nan => None
  end.

(** The conversion [time.Duration(x)] of a [float64]: the fraction is
    discarded.  Go leaves the result unspecified when the value does not
    fit; amd64 produces the smallest [int64], which is what is modelled. *)
Definition Duration_of_float64 (f : spec_float) : Z :=
  match float64_trunc f with
  | Some z => if (int64.min_int <=? z) && (z <=? int64.max_int) then z
              else int64.min_int
  | None => int64.min_int
  end.

(** The exact rational value of a finite binary64 number. *)
Definition float64_to_Q (f : spec_float) : option Q :=
  match f with
  | S754_zero _ => Some 0%Q
  | S754_finite s m e =>
      let mag := (inject_Z (Z.pos m) * Qpower 2 e)%Q in
      Some (if s then (- mag)%Q else mag)
  | S754_infinity _ | S754_nan => None
  end.

(** The binary64 number of an integer, not normalised. *)
Definition float64_of_Z (z : Z) : spec_float :=
  match z with
  | Z0 => S754_zero false
  | Zpos p => S754_finite false p 0
  | Zneg p => S754_finite true p 0
  end.

End time.

(** ** Dynamic values and errors *)

Definition bytes := list Byte.byte.

(** The result of a Go call that returns [(T, error)]. *)
Inductive result (A : Type) : Type :=
  | Ok (a : A)
  | Err (msg : string).
Arguments Ok {A} a.
Arguments Err {A} msg.

(** [*local.LocalResult]. *)
Record LocalResult := {
  ExitCode : Z;
  Stdout : string;
  Stderr : string;
  Duration : string
}.

(** The dynamic types that [interface{}] holds in this program: the
    values [encoding/json] and [yaml] decode to, the [int64] of
    [time.Now().Unix()], and the result of a local command. *)
Inductive value : Type :=
  | Nil
  | Bool (b : bool)
  | Int (z : Z)
  | Float (f : spec_float)
  | Str (s : string)
  | Slice (l : list value)
  | Map (m : gmap string value)
  | LocalResultPtr (r : LocalResult).

(** [v.(string)] with the comma-ok form: the zero value on a mismatch. *)
Definition as_string (v : option value) : string * bool :=
  match v with
  | Some (Str s) => (s, true)
  | _ => ("", false)
  end.

(** [v.(map[string]interface{})]. *)
Definition as_map (v : option value) : option (gmap string value) :=
  match v with
  | Some (Map m) => Some m
  | _ => None
  end.

(** [map[string]interface{}]. *)
Abbreviation jsonmap := (gmap string value).

(** ** Package [config] *)

Module config.

Record Reconnect := {
  Enabled : bool;
  MaxAttempts : Z;
  InitialDelay : Z;
  MaxDelay : Z;
  BackoffMultiplier : spec_float
}.

Record EnabledCommandFlags := {
  APICall : bool;
  HTTPRequest : bool;
  SSHCommand : bool
}.

(** The parts of [Config] that command processing reads. *)
Record Config := {
  QuickCommands : jsonmap;
  EnabledCommands : EnabledCommandFlags
}.

End config.

(** ** Package [client]: the supervisor loop [startConnectionClient] *)

Module supervisor.

Import config.

(** [maxReconnectAttempts] as computed before the loop. *)
Definition maxReconnectAttempts (r : Reconnect) : Z :=
  if MaxAttempts r =? 0 then 5 else MaxAttempts r.

(** [for i := 1; i < reconnectAttempts; i++ { delay *= mult }], with the
    number of iterations left as the structural argument. *)
Fixpoint backoff_loop (iters : nat) (mult delay : Z) : Z :=
  match iters with
  | O => delay
  | S n => backoff_loop n mult (int64.wrap64 (delay * mult))
  end.

(** The delay slept after a failed attempt, once [reconnectAttempts] has
    been incremented. *)
Definition backoff_delay (r : Reconnect) (reconnectAttempts : Z) : Z :=
  let delay :=
    backoff_loop (Z.to_nat (reconnectAttempts - 1))
      (time.Duration_of_float64 (BackoffMultiplier r)) (InitialDelay r) in
  if delay >? MaxDelay r then MaxDelay r else delay.


(** What the loop observes of its environment at the points where it
    depends on it. *)
Inductive observation :=
  | CtxDone      (* [<-ctx.Done()] is ready at a [select] *)
  | ConnectErr   (* [Connect] returns an error *)
  | ConnectOk    (* [Connect] returns [nil] *)
  | ConnLost     (* [IsConnected()] is false at the head of the inner loop *)
  | TimerFired.  (* the 30 s timer of the inner [select] fires *)

(** What the loop does. *)
Inductive action :=
  | ActConnect (attempt : Z)  (* a [Connect] call, logged as attempt n *)
  | ActSleep (d : Z)          (* [time.Sleep(d)] *)
  | ActHeartbeat              (* [SendCommand] of a heartbeat envelope *)
  | ActDisconnect.            (* [Disconnect()] on cancellation *)

(** Control points: the head of the outer [for], the head of the inner
    keep-alive [for], and after [return]. *)
Inductive location := LoopHead | KeepAlive | Returned.

Record state := {
  pc : location;
  reconnectAttempts : Z
}.

Definition initial : state := {| pc := LoopHead; reconnectAttempts := 0 |}.

(** One observation's worth of the loop.  [None]: the observation cannot
    be made at this control point. *)
Definition step (r : Reconnect) (s : state) (o : observation)
  : option (state * list action) :=
  match pc s, o with
  | LoopHead, CtxDone =>
      Some ({| pc := Returned; reconnectAttempts := reconnectAttempts s |}, [])
  | LoopHead, ConnectErr =>
      let dial := ActConnect (reconnectAttempts s + 1) in
      if negb (Enabled r) then
        Some ({| pc := Returned; reconnectAttempts := reconnectAttempts s |},
              [dial])
      else
        let n := int64.wrap64 (reconnectAttempts s + 1) in
        if n >=? maxReconnectAttempts r then
          Some ({| pc := Returned; reconnectAttempts := n |}, [dial])
        else
          Some ({| pc := LoopHead; reconnectAttempts := n |},
                [dial; ActSleep (backoff_delay r n)])
  | LoopHead, ConnectOk =>
      Some ({| pc := KeepAlive; reconnectAttempts := 0 |},
            [ActConnect (reconnectAttempts s + 1)])
  | KeepAlive, ConnLost =>
      if Enabled r then
        Some ({| pc := LoopHead; reconnectAttempts := reconnectAttempts s |},
              [ActSleep (InitialDelay r)])
      else
        Some ({| pc := Returned; reconnectAttempts := reconnectAttempts s |},
              [])
  | KeepAlive, CtxDone =>
      Some ({| pc := Returned; reconnectAttempts := reconnectAttempts s |},
            [ActDisconnect])
  | KeepAlive, TimerFired =>
      Some ({| pc := KeepAlive; reconnectAttempts := reconnectAttempts s |},
            [ActHeartbeat])
  | _, _ => None
  end.

(** The loop run against a sequence of observations; it stops at the
    first observation that does not apply (in particular after [return]). *)
Fixpoint run (r : Reconnect) (s : state) (os : list observation)
  : state * list action :=
  match os with
  | [] => (s, [])
  | o :: os' =>
      match step r s o with
      | None => (s, [])
      | Some (s', acts) =>
          let '(s'', acts') := run r s' os' in (s'', acts ++ acts')
      end
  end.

(** [startConnectionClient]: nothing happens without a configured URL. *)
Definition startConnectionClient (url : string) (r : Reconnect)
    (os : list observation) : state * list action :=
  if decide (url = "") then
    ({| pc := Returned; reconnectAttempts := 0 |}, [])
  else run r initial os.

(** The [Connect] calls of a trace, and the delays slept. *)
Definition connects (tr : list action) : list Z :=
  omap (fun a => match a with ActConnect n => Some n | _ => None end) tr.

Definition sleeps (tr : list action) : list Z :=
  omap (fun a => match a with ActSleep d => Some d | _ => None end) tr.

(** The trace of [n + 1] failed attempts in a row, the counter being [a]
    before the first of them: [n] delays, then the loop gives up. *)
Fixpoint failing_trace (r : Reconnect) (a : Z) (n : nat) : list action :=
  match n with
  | O => [ActConnect (a + 1)]
  | S n' =>
      ActConnect (a + 1) :: ActSleep (backoff_delay r (a + 1))
        :: failing_trace r (a + 1) n'
  end.

(** The counter of a state the loop can still leave is below the limit. *)
Definition counter_bounded (r : Reconnect) (s : state) : Prop :=
  0 <= reconnectAttempts s /\
  (pc s <> Returned ->
   reconnectAttempts s < Z.max 1 (maxReconnectAttempts r)).

(** The number of [Connect] calls after which a run of failures ends. *)
Definition attempt_limit (r : Reconnect) : nat :=
  Z.to_nat (Z.max 1 (maxReconnectAttempts r)).

(** Scenario A of the specification, and a policy with a fractional
    multiplier and no configured limit. *)
Definition scenario_A : Reconnect :=
  {| Enabled := true; MaxAttempts := 3; InitialDelay := 1 * time.Second;
     MaxDelay := 10 * time.Second;
     BackoffMultiplier := time.float64_of_Z 2 |}.

Definition policy_fractional : Reconnect :=
  {| Enabled := true; MaxAttempts := 0; InitialDelay := 1 * time.Second;
     MaxDelay := 10 * time.Second;
     BackoffMultiplier := S754_finite false 6755399441055744 (-52) |}.

(** The delay sequence in the words of the specification:
    [delay[n] = min(initial_delay * multiplier^n, max_delay)], over the
    rationals. *)
Definition spec_delay (r : Reconnect) (mult : Q) (n : nat) : Q :=
  Qmin (inject_Z (InitialDelay r) * Qpower mult (Z.of_nat n))
       (inject_Z (MaxDelay r)).

End supervisor.

(** ** Channels and pumps *)

Module chan.

(** A buffered channel is its capacity and the FIFO list of the elements
    it holds.

    [select { case ch <- x: ...; case <-time.After(d): ... }]: the send is
    ready exactly when the buffer has room, and is then taken at once (the
    timer is not ready at that time).  Otherwise the goroutine is parked;
    the function gives the outcome when no receiver makes room before the
    timer fires after [d].  A run in which a receiver does make room in
    time is the run in which that receive happens before the call.
    Returns the buffer when the element was sent, and the time parked. *)
Definition send_or_timeout {A : Type} (cap : nat) (d : Z)
    (buf : list A) (x : A) : option (list A) * Z :=
  if (length buf <? cap)%nat then (Some (buf ++ [x]), 0) else (None, d).

(** [x := <-ch] when ready: the head of the buffer. *)
Definition recv {A : Type} (buf : list A) : option (A * list A) :=
  match buf with
  | [] => None
  | x :: rest => Some (x, rest)
  end.

End chan.

(** The goroutines a [Connect] starts. *)
Inductive goroutine := ReadPump | WritePump | PingPump.

(** Whether a pump goes round its loop again. *)
Inductive pump_status := Running | Exited.

(** What a call to [SendCommand] returns, and the time it was parked. *)
Record outcome := {
  err : option string;
  elapsed : Z
}.

(** The timeout of every enqueue. *)
Definition sendTimeout : Z := 5 * time.Second.

(** ** Package [tcp] *)

Module tcp.

(** A [net.Conn]: a handle, closed or not. *)
Record Conn := {
  handle : nat;
  closed : bool
}.

Record TCPClient := {
  conn : option Conn;
  connected : bool;
  sendChan : list bytes;
  commandHandler : option (jsonmap -> option jsonmap)
}.

Definition sendChanCap : nat := 256.

Definition NewTCPClient : TCPClient :=
  {| conn := None; connected := false; sendChan := [];
     commandHandler := None |}.

Definition SetCommandHandler (c : TCPClient)
    (h : jsonmap -> option jsonmap) : TCPClient :=
  {| conn := conn c; connected := connected c; sendChan := sendChan c;
     commandHandler := Some h |}.

Definition IsConnected (c : TCPClient) : bool := connected c.

Definition close_conn (k : option Conn) : option Conn :=
  match k with
  | Some k => Some {| handle := handle k; closed := true |}
  | None => None
  end.

Definition Disconnect (c : TCPClient) : TCPClient :=
  if negb (connected c) then c
  else {| conn := close_conn (conn c); connected := false;
          sendChan := sendChan c; commandHandler := commandHandler c |}.

(** What a pump does to the outside: bytes written on a connection, the
    injected handler called on a message. *)
Inductive effect :=
  | Wrote (h : nat) (data : bytes)
  | HandlerCall (m : jsonmap)
  | SendCall (payload : jsonmap) (e : option string).

Section with_json.

(** [json.Marshal] of a map and [json.Unmarshal] into a map; a JSON
    [null] leaves the map [nil], which reads as the empty map. *)
Variable json_Marshal : jsonmap -> result bytes.
Variable json_Unmarshal : bytes -> result jsonmap.

Definition SendCommand (c : TCPClient) (payload : jsonmap)
  : outcome * TCPClient :=
  if negb (IsConnected c) then
    ({| err := Some "TCP not connected"; elapsed := 0 |}, c)
  else
    match json_Marshal payload with
    | Err e =>
        ({| err := Some ("failed to marshal message: " +:+ e);
            elapsed := 0 |}, c)
    | Ok data =>
        match chan.send_or_timeout sendChanCap sendTimeout
                (sendChan c) data with
        | (Some buf, t) =>
            ({| err := None; elapsed := t |},
             {| conn := conn c; connected := connected c; sendChan := buf;
                commandHandler := commandHandler c |})
        | (None, t) => ({| err := Some "send timeout"; elapsed := t |}, c)
        end
    end.

Definition identification (clientID : string) (now : Z) : jsonmap :=
  <["type" := Str "identify"]>
    (<["client_id" := Str clientID]> (<["timestamp" := Int now]> ∅)).

(** [Connect]: [dial] is what [DialContext] returns, [now] the clock. *)
Definition Connect (c : TCPClient) (dial : result nat) (clientID : string)
    (now : Z) : option string * TCPClient * list goroutine :=
  match dial with
  | Err e => (Some ("failed to connect to TCP server: " +:+ e), c, [])
  | Ok h =>
      let c1 :=
        {| conn := Some {| handle := h; closed := false |};
           connected := true; sendChan := sendChan c;
           commandHandler := commandHandler c |} in
      let '(_, c2) := SendCommand c1 (identification clientID now) in
      (None, c2, [ReadPump; WritePump])
  end.

(** One round of [writePump] when the channel has an element; [None]
    when the pump stays parked on the empty channel.  [write_ok]: whether
    the write on an open connection succeeds. *)
Definition writePump_step (c : TCPClient) (write_ok : bool)
  : option (pump_status * TCPClient * list effect) :=
  match chan.recv (sendChan c) with
  | None => None
  | Some (data, rest) =>
      let c' := {| conn := conn c; connected := connected c;
                   sendChan := rest; commandHandler := commandHandler c |} in
      match conn c with
      | Some k =>
          if negb (closed k) && write_ok
          then Some (Running, c', [Wrote (handle k) data])
          else Some (Exited, c', [])
      | None => Some (Exited, c', [])
      end
  end.

Definition handleMessage (c : TCPClient) (data : bytes) (now : Z)
  : TCPClient * list effect :=
  match json_Unmarshal data with
  | Err _ => (c, [])
  | Ok message =>
      let system (response : jsonmap) :=
        let '(o, c') := SendCommand c response in
        (c', [SendCall response (err o)]) in
      let forward :=
        match commandHandler c with
        | Some handler =>
            match handler message with
            | Some response =>
                let '(o, c') := SendCommand c response in
                (c', [HandlerCall message; SendCall response (err o)])
            | None => (c, [HandlerCall message])
            end
        | None => (c, [])
        end in
      match as_string (message !! "type") with
      | (msgType, true) =>
          if decide (msgType = "identification_success") then (c, [])
          else if decide (msgType = "status_request") then
            system (<["type" := Str "status_response"]>
                     (<["connected" := Bool (IsConnected c)]>
                       (<["client_id" := Str "tcp-client"]>
                         (<["timestamp" := Int now]> ∅))))
          else if decide (msgType = "ping") then
            system (<["type" := Str "pong"]>
                     (<["timestamp" := Int now]> ∅))
          else forward
      | (_, false) => forward
      end
  end.

(** One round of [readPump]: [rd] is what [c.conn.Read] returns.  A read
    error ends the pump, whose deferred call disconnects. *)
Definition readPump_step (c : TCPClient) (rd : result bytes) (now : Z)
  : pump_status * TCPClient * list effect :=
  match rd with
  | Err _ => (Exited, Disconnect c, [])
  | Ok data =>
      if (0 <? length data)%nat then
        let '(c', es) := handleMessage c data now in (Running, c', es)
      else (Running, c, [])
  end.

(** Two sessions of one client.  In the first the writer stops on a
    write error, a heartbeat is enqueued while the client still counts as
    connected, then the reader meets a read error and disconnects; the
    supervisor connects again.  Returns the queue after the second
    [Connect] and the first round of the writer of the second session. *)
Definition reconnect_after_writer_exit (clientID : string)
    (heartbeat : jsonmap) (t0 t1 : Z)
  : list bytes * option (pump_status * TCPClient * list effect) :=
  let '(_, c1, _) := Connect NewTCPClient (Ok 1%nat) clientID t0 in
  match writePump_step c1 false with
  | None => ([], None)
  | Some (_, c2, _) =>
      let '(_, c3) := SendCommand c2 heartbeat in
      let '(_, c4, _) := readPump_step c3 (Err "EOF") t0 in
      let '(_, c5, _) := Connect c4 (Ok 2%nat) clientID t1 in
      (sendChan c5, writePump_step c5 true)
  end.

End with_json.

(** The handler calls among the effects of a pump. *)
Definition handler_calls (es : list effect) : list jsonmap :=
  omap (fun e => match e with HandlerCall m => Some m | _ => None end) es.

End tcp.

(** ** Package [websocket] *)

Module websocket.

Record Conn := {
  handle : nat;
  closed : bool
}.

Record WSMessage := {
  Type_ : string;
  Payload : value;
  ID : string
}.

(** The frames written on a connection. *)
Inductive frame :=
  | TextMessage (data : bytes)
  | PingMessage
  | CloseMessage.

Record WSClient := {
  conn : option Conn;
  connected : bool;
  sendChan : list bytes;
  reconnect : bool;
  pingInterval : Z;
  commandHandler : option (WSMessage -> WSMessage)
}.

Definition sendChanCap : nat := 256.


(** The limit set with [SetReadLimit]. *)
Definition readLimit : Z := 512 * 1024 * 1024.

Definition NewWSClient : WSClient :=
  {| conn := None; connected := false; sendChan := []; reconnect := false;
     pingInterval := 30 * time.Second; commandHandler := None |}.

Definition SetCommandHandler (c : WSClient) (h : WSMessage -> WSMessage)
  : WSClient :=
  {| conn := conn c; connected := connected c; sendChan := sendChan c;
     reconnect := reconnect c; pingInterval := pingInterval c;
     commandHandler := Some h |}.

Definition with_sendChan (c : WSClient) (buf : list bytes) : WSClient :=
  {| conn := conn c; connected := connected c; sendChan := buf;
     reconnect := reconnect c; pingInterval := pingInterval c;
     commandHandler := commandHandler c |}.

Definition IsConnected (c : WSClient) : bool := connected c.

Inductive effect :=
  | Wrote (h : nat) (f : frame)
  | HandlerCall (m : WSMessage)
  | SendCall (m : WSMessage) (e : option string).

(** [Disconnect]: on a live connection a close frame is written (a
    failure is only logged) and the connection is closed. *)
Definition Disconnect (c : WSClient) (write_ok : bool)
  : WSClient * list effect :=
  if negb (connected c) then (c, [])
  else
    let c' k := {| conn := k; connected := false; sendChan := sendChan c;
                   reconnect := false; pingInterval := pingInterval c;
                   commandHandler := commandHandler c |} in
    match conn c with
    | Some k =>
        (c' (Some {| handle := handle k; closed := true |}),
         if negb (closed k) && write_ok then [Wrote (handle k) CloseMessage]
         else [])
    | None => (c' None, [])
    end.

Section with_json.

(** [json.Marshal] of a [WSMessage] and [json.Unmarshal] into one. *)
Variable json_Marshal : WSMessage -> result bytes.
Variable json_Unmarshal : bytes -> result WSMessage.

Definition SendCommand (c : WSClient) (cmdType : string) (payload : value)
    (id : string) : outcome * WSClient :=
  if negb (IsConnected c) then
    ({| err := Some "WebSocket not connected"; elapsed := 0 |}, c)
  else
    let message := {| Type_ := cmdType; Payload := payload; ID := id |} in
    match json_Marshal message with
    | Err e =>
        ({| err := Some ("failed to marshal message: " +:+ e);
            elapsed := 0 |}, c)
    | Ok data =>
        match chan.send_or_timeout sendChanCap sendTimeout
                (sendChan c) data with
        | (Some buf, t) =>
            ({| err := None; elapsed := t |}, with_sendChan c buf)
        | (None, t) => ({| err := Some "send timeout"; elapsed := t |}, c)
        end
    end.

Definition identification (clientID : string) (now : Z) : value :=
  Map (<["type" := Str "identify"]>
        (<["client_id" := Str clientID]> (<["timestamp" := Int now]> ∅))).

Definition Connect (c : WSClient) (dial : result nat) (clientID : string)
    (now : Z) : option string * WSClient * list goroutine :=
  match dial with
  | Err e => (Some ("failed to connect to WebSocket: " +:+ e), c, [])
  | Ok h =>
      let c1 :=
        {| conn := Some {| handle := h; closed := false |};
           connected := true; sendChan := sendChan c;
           reconnect := reconnect c; pingInterval := pingInterval c;
           commandHandler := commandHandler c |} in
      let '(_, c2) :=
        SendCommand c1 "identification" (identification clientID now)
          "init" in
      (None, c2, [ReadPump; WritePump; PingPump])
  end.

(** One round of [writePump] that receives from the channel; [None]
    when the channel is empty (its own ticker does nothing). *)
Definition writePump_step (c : WSClient) (write_ok : bool)
  : option (pump_status * WSClient * list effect) :=
  match chan.recv (sendChan c) with
  | None => None
  | Some (data, rest) =>
      let c' := with_sendChan c rest in
      match conn c with
      | Some k =>
          if negb (closed k) && write_ok
          then Some (Running, c', [Wrote (handle k) (TextMessage data)])
          else Some (Exited, c', [])
      | None => Some (Exited, c', [])
      end
  end.

(** One tick of the 54 s ticker of [pingPump]. *)
Definition pingPump_tick (c : WSClient) (write_ok : bool)
  : pump_status * WSClient * list effect :=
  if IsConnected c then
    match conn c with
    | Some k =>
        if negb (closed k) && write_ok
        then (Running, c, [Wrote (handle k) PingMessage])
        else (Exited, c, [])
    | None => (Exited, c, [])
    end
  else (Running, c, []).

Definition handleMessage (c : WSClient) (data : bytes) (now : Z)
  : WSClient * list effect :=
  match json_Unmarshal data with
  | Err _ => (c, [])
  | Ok message =>
      let reply cmdType payload :=
        let '(o, c') := SendCommand c cmdType payload (ID message) in
        (c', [SendCall {| Type_ := cmdType; Payload := payload;
                          ID := ID message |} (err o)]) in
      if decide (Type_ message = "identification_success") then (c, [])
      else if decide (Type_ message = "status_request") then
        reply "status_response"
          (Map (<["connected" := Bool (IsConnected c)]>
                 (<["client_id" := Str "websocket-client"]>
                   (<["timestamp" := Int now]> ∅))))
      else if decide (Type_ message = "ping") then
        reply "pong" (Map (<["timestamp" := Int now]> ∅))
      else
        match commandHandler c with
        | Some handler =>
            let response := handler message in
            if decide (Type_ response = "") then (c, [HandlerCall message])
            else
              match json_Marshal response with
              | Err _ => (c, [HandlerCall message])
              | Ok responseData =>
                  match chan.send_or_timeout sendChanCap sendTimeout
                          (sendChan c) responseData with
                  | (Some buf, _) =>
                      (with_sendChan c buf,
                       [HandlerCall message; SendCall response None])
                  | (None, _) =>
                      (c, [HandlerCall message;
                           SendCall response (Some "timeout")])
                  end
              end
        | None => (c, [])
        end
  end.

(** One round of [readPump]: [rd] is what [ReadMessage] returns. *)
Definition readPump_step (c : WSClient) (rd : result bytes) (now : Z)
    (write_ok : bool) : pump_status * WSClient * list effect :=
  match rd with
  | Err _ => let '(c', es) := Disconnect c write_ok in (Exited, c', es)
  | Ok data =>
      let '(c', es) := handleMessage c data now in (Running, c', es)
  end.

(** The two sessions of [tcp.reconnect_after_writer_exit], on this
    transport. *)
Definition reconnect_after_writer_exit (clientID : string)
    (heartbeat : value) (t0 t1 : Z)
  : list bytes * option (pump_status * WSClient * list effect) :=
  let '(_, c1, _) := Connect NewWSClient (Ok 1%nat) clientID t0 in
  match writePump_step c1 false with
  | None => ([], None)
  | Some (_, c2, _) =>
      let '(_, c3) := SendCommand c2 "heartbeat" heartbeat "heartbeat" in
      let '(_, c4, _) := readPump_step c3 (Err "EOF") t0 false in
      let '(_, c5, _) := Connect c4 (Ok 2%nat) clientID t1 in
      (sendChan c5, writePump_step c5 true)
  end.

End with_json.

Definition handler_calls (es : list effect) : list WSMessage :=
  omap (fun e => match e with HandlerCall m => Some m | _ => None end) es.

End websocket.

(** The reserved types that the transports answer themselves. *)
Definition system_type (t : string) : Prop :=
  t = "identification_success" \/ t = "status_request" \/ t = "ping".

(** ** Package [local] and package [proxy]: the executors' interfaces *)

Module local.

Record LocalCommand := {
  Command : string;
  Env : option (gmap string string);
  WorkDir : string;
  Timeout : Z
}.

End local.

Module proxy.

Record APIResponse := {
  Success : bool;
  Data : value;
  Error : string
}.

End proxy.

(** ** Package [client]: command processing *)

Module Command.

Record t := {
  Type_ : string;
  Payload : value;
  ID : string
}.

End Command.

Module CommandResponse.

Record t := {
  ID : string;
  Success : bool;
  Data : value;
  Error : string
}.

End CommandResponse.

Module client.

Import config.

(** The calls made to the executors. *)
Inductive call :=
  | ExecuteAPICall (url method : string)
      (headers : option (gmap string string)) (body : value)
  | ExecuteHTTPRequest (url method : string)
      (headers : option (gmap string string)) (body : value)
  | ExecuteCommand (cmd : local.LocalCommand).

(** [fail cmd msg]: the response of every refusal. *)
Definition fail (command : Command.t) (msg : string) : CommandResponse.t :=
  {| CommandResponse.ID := Command.ID command;
     CommandResponse.Success := false;
     CommandResponse.Data := Nil;
     CommandResponse.Error := msg |}.

(** The [map[string]string] built from the string-valued entries of a
    header or environment map; [nil] when the key is absent or is not a
    map. *)
Definition string_entries (raw : option value) : option (gmap string string) :=
  match raw with
  | Some (Map m) =>
      Some (omap (fun v => match v with Str s => Some s | _ => None end) m)
  | _ => None
  end.

Section with_executors.

Variable cfg : Config.

(** The executors: [proxy.APIClient] and [local.LocalClient], and
    [time.ParseDuration]. *)
Variable apiClient_ExecuteAPICall :
  string -> string -> option (gmap string string) -> value ->
  result proxy.APIResponse.
Variable apiClient_ExecuteHTTPRequest :
  string -> string -> option (gmap string string) -> value ->
  result proxy.APIResponse.
Variable localClient_ExecuteCommand :
  local.LocalCommand -> result LocalResult.
Variable time_ParseDuration : string -> result Z.

Definition of_APIResponse (command : Command.t) (r : proxy.APIResponse)
  : CommandResponse.t :=
  {| CommandResponse.ID := Command.ID command;
     CommandResponse.Success := proxy.Success r;
     CommandResponse.Data := proxy.Data r;
     CommandResponse.Error := proxy.Error r |}.

Definition handleAPICall (command : Command.t)
  : CommandResponse.t * list call :=
  match as_map (Some (Command.Payload command)) with
  | None => (fail command "Invalid payload format for api_call", [])
  | Some payload =>
      let url := fst (as_string (payload !! "url")) in
      let method := fst (as_string (payload !! "method")) in
      let method := if decide (method = "") then "POST" else method in
      let headers := string_entries (payload !! "headers") in
      let body := default Nil (payload !! "body") in
      let calls := [ExecuteAPICall url method headers body] in
      match apiClient_ExecuteAPICall url method headers body with
      | Err e => (fail command ("API call failed 1: " +:+ e), calls)
      | Ok r => (of_APIResponse command r, calls)
      end
  end.

Definition handleHTTPRequest (command : Command.t)
  : CommandResponse.t * list call :=
  match as_map (Some (Command.Payload command)) with
  | None => (fail command "Invalid payload format for http_request", [])
  | Some payload =>
      let url := fst (as_string (payload !! "url")) in
      let method := fst (as_string (payload !! "method")) in
      let method := if decide (method = "") then "GET" else method in
      let headers := string_entries (payload !! "headers") in
      let body := default Nil (payload !! "body") in
      let calls := [ExecuteHTTPRequest url method headers body] in
      match apiClient_ExecuteHTTPRequest url method headers body with
      | Err e => (fail command ("HTTP request failed: " +:+ e), calls)
      | Ok r => (of_APIResponse command r, calls)
      end
  end.

Definition handleSSHCommand (command : Command.t)
  : CommandResponse.t * list call :=
  match as_map (Some (Command.Payload command)) with
  | None => (fail command "Invalid payload format for ssh_command", [])
  | Some payload =>
      let commandStr := fst (as_string (payload !! "command")) in
      if decide (commandStr = "") then
        (fail command "command is required for ssh_command", [])
      else
        let env := string_entries (payload !! "env") in
        let workDir := fst (as_string (payload !! "work_dir")) in
        let timeout :=
          match payload !! "timeout" with
          | Some (Str str) =>
              match time_ParseDuration str with
              | Ok parsed => parsed
              | Err _ => 0
              end
          | _ => 0
          end in
        let localCmd :=
          {| local.Command := commandStr; local.Env := env;
             local.WorkDir := workDir; local.Timeout := timeout |} in
        match localClient_ExecuteCommand localCmd with
        | Err e =>
            (fail command ("Command execution failed: " +:+ e),
             [ExecuteCommand localCmd])
        | Ok r =>
            ({| CommandResponse.ID := Command.ID command;
                CommandResponse.Success := bool_decide (ExitCode r = 0);
                CommandResponse.Data := LocalResultPtr r;
                CommandResponse.Error := "" |},
             [ExecuteCommand localCmd])
        end
  end.

Definition handleQuickCommand (command : Command.t)
  : CommandResponse.t * list call :=
  match as_map (Some (Command.Payload command)) with
  | None => (fail command "Invalid payload format for quick_command", [])
  | Some payload =>
      match payload !! "command" with
      | None => (fail command "command name is required for quick_command", [])
      | Some commandName =>
          match as_string (Some commandName) with
          | (_, false) => (fail command "command name must be a string", [])
          | (commandNameStr, true) =>
              match QuickCommands cfg !! commandNameStr with
              | None =>
                  (fail command
                     ("Quick command '" +:+ commandNameStr +:+ "' not found"),
                   [])
              | Some quickCmd =>
                  match as_map (Some quickCmd) with
                  | None =>
                      (fail command
                         ("Invalid quick command format for '"
                          +:+ commandNameStr +:+ "'"), [])
                  | Some quickCmdMap =>
                      match quickCmdMap !! "type" with
                      | None =>
                          (fail command
                             ("Quick command '" +:+ commandNameStr
                              +:+ "' missing type"), [])
                      | Some cmdType =>
                          match as_string (Some cmdType) with
                          | (_, false) =>
                              (fail command
                                 ("Quick command '" +:+ commandNameStr
                                  +:+ "' type must be a string"), [])
                          | (cmdTypeStr, true) =>
                              let cmdPayload :=
                                default (Map ∅) (quickCmdMap !! "payload") in
                              let newCommand :=
                                {| Command.Type_ := cmdTypeStr;
                                   Command.ID := Command.ID command;
                                   Command.Payload := cmdPayload |} in
                              if decide (cmdTypeStr = "api_call") then
                                handleAPICall newCommand
                              else if decide (cmdTypeStr = "http_request") then
                                handleHTTPRequest newCommand
                              else if decide (cmdTypeStr = "ssh_command") then
                                handleSSHCommand newCommand
                              else
                                (fail command
                                   ("Unsupported quick command type: "
                                    +:+ cmdTypeStr), [])
                          end
                      end
                  end
              end
          end
      end
  end.

Definition handleCustom (command : Command.t)
  : CommandResponse.t * list call :=
  ({| CommandResponse.ID := Command.ID command;
      CommandResponse.Success := true;
      CommandResponse.Data :=
        Map (<["message" := Str "Custom command executed"]>
              (<["received_payload" := Command.Payload command]> ∅));
      CommandResponse.Error := "" |}, []).

(** The message of a disabled command type. *)
Definition disabled_message (type : string) : string :=
  type +:+ " commands are disabled".

Definition processCommand (command : Command.t)
  : CommandResponse.t * list call :=
  let type := Command.Type_ command in
  if decide (type = "api_call") then
    if negb (APICall (EnabledCommands cfg)) then
      (fail command "api_call commands are disabled", [])
    else handleAPICall command
  else if decide (type = "http_request") then
    if negb (HTTPRequest (EnabledCommands cfg)) then
      (fail command "http_request commands are disabled", [])
    else handleHTTPRequest command
  else if decide (type = "ssh_command") then
    if negb (SSHCommand (EnabledCommands cfg)) then
      (fail command "ssh_command commands are disabled", [])
    else handleSSHCommand command
  else if decide (type = "quick_command") then handleQuickCommand command
  else if decide (type = "custom") then handleCustom command
  else
    (fail command
       ("Unknown command type: " +:+ type +:+
        ". Supported types: api_call, http_request, ssh_command, quick_command, open_cell, get_cell_status, add_key, delete_key, sync_keys, reboot, status, update, custom"),
     []).

(** The enable flag of a gated command type; [None] for a type without a
    flag. *)
Definition enable_flag (type : string) : option bool :=
  if decide (type = "api_call") then Some (APICall (EnabledCommands cfg))
  else if decide (type = "http_request") then
    Some (HTTPRequest (EnabledCommands cfg))
  else if decide (type = "ssh_command") then
    Some (SSHCommand (EnabledCommands cfg))
  else None.

End with_executors.

End client.

(** ** Sample data *)

Module sample.

(** Stand-ins for the JSON encoders and decoders: the bytes of an
    envelope are the bytes of its type, and every such message has the
    correlation id 7. *)
Definition tcp_Marshal (m : jsonmap) : result bytes :=
  Ok (list_byte_of_string (as_string (m !! "type")).1).

Definition tcp_Unmarshal (data : bytes) : result jsonmap :=
  Ok (<["type" := Str (string_of_list_byte data)]>
       (<["id" := Str "7"]> ∅)).

Definition ws_Marshal (m : websocket.WSMessage) : result bytes :=
  Ok (list_byte_of_string (websocket.Type_ m)).

Definition ws_Unmarshal (data : bytes) : result websocket.WSMessage :=
  Ok {| websocket.Type_ := string_of_list_byte data;
        websocket.Payload := Nil; websocket.ID := "7" |}.

(** Clients in their first session, the identification still queued. *)
Definition tcp_connected : tcp.TCPClient :=
  (tcp.Connect tcp_Marshal tcp.NewTCPClient (Ok 1%nat) "edge-1" 1700000000).1.2.

Definition ws_connected : websocket.WSClient :=
  (websocket.Connect ws_Marshal websocket.NewWSClient (Ok 1%nat) "edge-1"
     1700000000).1.2.

(** The same clients with the outbound queue filled to capacity. *)
Definition tcp_saturated : tcp.TCPClient :=
  {| tcp.conn := tcp.conn tcp_connected; tcp.connected := true;
     tcp.sendChan := repeat [] 256; tcp.commandHandler := None |}.

Definition ws_saturated : websocket.WSClient :=
  websocket.with_sendChan ws_connected (repeat [] 256).

Definition heartbeat : jsonmap :=
  <["type" := Str "heartbeat"]>
    (<["payload" := Map (<["status" := Str "active"]> ∅)]>
      (<["id" := Str "heartbeat"]> ∅)).

(** [ssh_command] is disabled, and a quick command resolves to it. *)
Definition cfg_ssh_disabled : config.Config :=
  {| config.QuickCommands :=
       <["cleanup" :=
           Map (<["type" := Str "ssh_command"]>
                 (<["payload" :=
                      Map (<["command" := Str "rm -rf /tmp/cache"]> ∅)]> ∅))]>
         ∅;
     config.EnabledCommands :=
       {| config.APICall := true; config.HTTPRequest := true;
          config.SSHCommand := false |} |}.

Definition quick_cleanup : Command.t :=
  {| Command.Type_ := "quick_command";
     Command.Payload := Map (<["command" := Str "cleanup"]> ∅);
     Command.ID := "1" |}.

End sample.

(** ** Package [client]: the facade *)

Module facade.

(** The [WebSocket] section of [Config]. *)
Record WebSocket := {
  Enabled : bool;
  URL : string;
  ClientID : string;
  Protocol : string;
  Reconnect : config.Reconnect
}.

(** The address that [startConnectionClient] dials: for the TCP protocol
    a leading [ws://] or [wss://] is cut off. *)
Definition dial_address (protocol url : string) : string :=
  let address := url in
  if decide (protocol = "tcp") then
    if (5 <? String.length address)%nat
       && String.eqb (substring 0 5 address) "ws://"
    then substring 5 (String.length address - 5) address
    else if (6 <? String.length address)%nat
            && String.eqb (substring 0 6 address) "wss://"
    then substring 6 (String.length address - 6) address
    else address
  else address.

(** A [CommandResponse] held in an [interface{}], given by the fields
    that [encoding/json] writes for it: [id], [success], and [data] and
    [error] unless empty. *)
Definition CommandResponse_fields (r : CommandResponse.t) : value :=
  let base : jsonmap :=
    <["id" := Str (CommandResponse.ID r)]>
      (<["success" := Bool (CommandResponse.Success r)]> ∅) in
  let with_data : jsonmap :=
    match CommandResponse.Data r with
    | Nil => base
    | d => <["data" := d]> base
    end in
  Map (if decide (CommandResponse.Error r = "") then with_data
       else <["error" := Str (CommandResponse.Error r)]> with_data).

Record Client := {
  websocket_config : WebSocket;
  config : config.Config;
  running : bool;
  wsClient : option websocket.WSClient;
  tcpClient : option tcp.TCPClient;
  protocol : string
}.

Definition NewClient (ws : WebSocket) (cfg : config.Config) : Client :=
  let tcp_selected := bool_decide (Protocol ws = "tcp") in
  {| websocket_config := ws; config := cfg; running := false;
     wsClient :=
       if Enabled ws && negb tcp_selected then Some websocket.NewWSClient
       else None;
     tcpClient :=
       if Enabled ws && tcp_selected then Some tcp.NewTCPClient else None;
     protocol := Protocol ws |}.

Definition GetStats (c : Client) : jsonmap :=
  let connected :=
    if decide (protocol c = "tcp") then
      match tcpClient c with
      | Some t => tcp.IsConnected t
      | None => false
      end
    else
      match wsClient c with
      | Some w => websocket.IsConnected w
      | None => false
      end in
  let flags := config.EnabledCommands (config c) in
  <["running" := Bool (running c)]>
    (<["url" := Str (URL (websocket_config c))]>
      (<["protocol" := Str (protocol c)]>
        (<["connected" := Bool connected]>
          (<["enabled_commands" :=
               Map (<["api_call" := Bool (config.APICall flags)]>
                     (<["http_request" := Bool (config.HTTPRequest flags)]>
                       (<["ssh_command" := Bool (config.SSHCommand flags)]>
                         ∅)))]> ∅)))).

(** [Stop]: [write_ok] tells whether the close frame of the WebSocket
    can be written. *)
Definition Stop (c : Client) (write_ok : bool) : Client :=
  if negb (running c) then c
  else
    {| websocket_config := websocket_config c; config := config c;
       running := false;
       wsClient :=
         match wsClient c with
         | Some w => Some (websocket.Disconnect w write_ok).1
         | None => None
         end;
       tcpClient :=
         match tcpClient c with
         | Some t => Some (tcp.Disconnect t)
         | None => None
         end;
       protocol := protocol c |}.

Section with_executors.

Variable apiClient_ExecuteAPICall :
  string -> string -> option (gmap string string) -> value ->
  result proxy.APIResponse.
Variable apiClient_ExecuteHTTPRequest :
  string -> string -> option (gmap string string) -> value ->
  result proxy.APIResponse.
Variable localClient_ExecuteCommand :
  local.LocalCommand -> result LocalResult.
Variable time_ParseDuration : string -> result Z.

Definition processCommand (cfg : config.Config) (command : Command.t)
  : CommandResponse.t * list client.call :=
  client.processCommand cfg apiClient_ExecuteAPICall
    apiClient_ExecuteHTTPRequest localClient_ExecuteCommand
    time_ParseDuration command.

Definition handleTCPCommand (cfg : config.Config) (message : jsonmap)
  : jsonmap * list client.call :=
  let cmdType := (as_string (message !! "type")).1 in
  let cmdID := (as_string (message !! "id")).1 in
  let payload := default Nil (message !! "payload") in
  let command :=
    {| Command.Type_ := cmdType; Command.Payload := payload;
       Command.ID := cmdID |} in
  let '(response, calls) := processCommand cfg command in
  (<["type" := Str "command_response"]>
     (<["payload" := CommandResponse_fields response]>
       (<["id" := Str (CommandResponse.ID response)]> ∅)),
   calls).

Definition handleWebSocketCommand (cfg : config.Config)
    (message : websocket.WSMessage)
  : websocket.WSMessage * list client.call :=
  let command :=
    {| Command.Type_ := websocket.Type_ message;
       Command.Payload := websocket.Payload message;
       Command.ID := websocket.ID message |} in
  let '(response, calls) := processCommand cfg command in
  ({| websocket.Type_ := "command_response";
      websocket.Payload := CommandResponse_fields response;
      websocket.ID := websocket.ID message |},
   calls).

(** [Start]: the error, the client, and whether the supervisor loop was
    launched. *)
Definition Start (c : Client) : option string * Client * bool :=
  if running c then (Some "client is already running", c, false)
  else
    let with_clients w t :=
      {| websocket_config := websocket_config c; config := config c;
         running := true; wsClient := w; tcpClient := t;
         protocol := protocol c |} in
    if Enabled (websocket_config c) then
      match decide (protocol c = "tcp"), tcpClient c with
      | left _, Some t =>
          (None,
           with_clients (wsClient c)
             (Some (tcp.SetCommandHandler t
                      (fun m => Some (handleTCPCommand (config c) m).1))),
           true)
      | _, _ =>
          match wsClient c with
          | Some w =>
              (None,
               with_clients
                 (Some (websocket.SetCommandHandler w
                          (fun m => (handleWebSocketCommand (config c) m).1)))
                 (tcpClient c),
               true)
          | None => (None, with_clients (wsClient c) (tcpClient c), true)
          end
      end
    else (None, with_clients (wsClient c) (tcpClient c), false).

End with_executors.

End facade.

(** ** More sample data *)

Module sample_policies.


(** The multiplier 0.5. *)
Definition halving : config.Reconnect :=
  {| config.Enabled := true; config.MaxAttempts := 5;
     config.InitialDelay := 5 * time.Second;
     config.MaxDelay := 60 * time.Second;
     config.BackoffMultiplier := S754_finite false 4503599627370496 (-53) |}.

End sample_policies.

(** ** Well-formed executor calls, sample handlers *)

(** A call with a method or a command that is not empty. *)
Definition call_well_formed (c : client.call) : Prop :=
  match c with
  | client.ExecuteAPICall _ method _ _
  | client.ExecuteHTTPRequest _ method _ _ => method <> ""
  | client.ExecuteCommand cmd => local.Command cmd <> ""
  end.

(** The calls of a handler: at most one, and well formed. *)
Definition calls_ok (calls : list client.call) : Prop :=
  (length calls <= 1)%nat /\ Forall call_well_formed calls.

(** The command types for which [processCommand] may reach an executor. *)
Definition executing_type (t : string) : Prop :=
  t = "api_call" \/ t = "http_request" \/ t = "ssh_command"
  \/ t = "quick_command".

(** The types a quick command may resolve to. *)
Definition quick_target (t : string) : Prop :=
  t = "api_call" \/ t = "http_request" \/ t = "ssh_command".

Module sample_clients.

(** Disconnected clients with an echoing handler installed. *)
Definition tcp_stopped : tcp.TCPClient :=
  tcp.Disconnect (tcp.SetCommandHandler sample.tcp_connected (fun m => Some m)).

Definition ws_stopped : websocket.WSClient :=
  (websocket.Disconnect
     (websocket.SetCommandHandler sample.ws_connected (fun m => m)) true).1.

(** An enabled TCP configuration and an enabled WebSocket one. *)
Definition tcp_settings : facade.WebSocket :=
  {| facade.Enabled := true; facade.URL := "ws://hub.example:9000";
     facade.ClientID := "edge-1"; facade.Protocol := "tcp";
     facade.Reconnect := supervisor.scenario_A |}.

Definition ws_settings : facade.WebSocket :=
  {| facade.Enabled := true; facade.URL := "ws://hub.example:9000";
     facade.ClientID := "edge-1"; facade.Protocol := "websocket";
     facade.Reconnect := supervisor.scenario_A |}.

(** Executors that fail, for the samples that do not reach them. *)
Definition no_api (url method : string) (headers : option (gmap string string))
    (body : value) : result proxy.APIResponse := Err "unreachable".

Definition no_shell (cmd : local.LocalCommand) : result LocalResult :=
  Err "unreachable".

Definition no_duration (s : string) : result Z := Err "invalid duration".

End sample_clients.

Module sample_sessions.

(** The handlers that [Start] installs, with executors that fail. *)
Definition tcp_handler (m : jsonmap) : option jsonmap :=
  Some (facade.handleTCPCommand sample_clients.no_api sample_clients.no_api
          sample_clients.no_shell sample_clients.no_duration
          sample.cfg_ssh_disabled m).1.

Definition ws_handler (m : websocket.WSMessage) : websocket.WSMessage :=
  (facade.handleWebSocketCommand sample_clients.no_api sample_clients.no_api
     sample_clients.no_shell sample_clients.no_duration
     sample.cfg_ssh_disabled m).1.

(** Connected clients with those handlers. *)
Definition tcp_serving : tcp.TCPClient :=
  tcp.SetCommandHandler sample.tcp_connected tcp_handler.

Definition ws_serving : websocket.WSClient :=
  websocket.SetCommandHandler sample.ws_connected ws_handler.

(** A facade client that was started and whose transport is connected. *)
Definition running_client : facade.Client :=
  {| facade.websocket_config := sample_clients.tcp_settings;
     facade.config := sample.cfg_ssh_disabled;
     facade.running := true;
     facade.wsClient := None;
     facade.tcpClient := Some tcp_serving;
     facade.protocol := "tcp" |}.

End sample_sessions.

(** ** Package [local]: [ExecuteCommand] *)

Module local_exec.

(** What [execCmd.Wait] returns when it fails. *)
Inductive wait_error :=
  | ExitError (code : Z)
  | OtherError (msg : string).

(** A run of [sh -c command]: the error of [Start], whether the context
    is done before the process ends, the error of [Wait], the two output
    buffers and the printed duration. *)
Record process := {
  start_error : option string;
  ctx_done : bool;
  wait : option wait_error;
  stdout : string;
  stderr : string;
  duration : string
}.

(** The environment given to the process: [None] when it inherits the
    environment of the agent, which is the case when no variable is
    added to the empty [execCmd.Env]. *)
Definition process_env (env : option (gmap string string))
  : option (gmap string string) :=
  match env with
  | Some m => if decide (m = ∅) then None else Some m
  | None => None
  end.

(** The assignment [cmd.Timeout = 30 * time.Second] at the head of
    [ExecuteCommand]; nothing reads the field afterwards. *)
Definition with_default_timeout (cmd : local.LocalCommand)
  : local.LocalCommand :=
  if local.Timeout cmd =? 0 then
    {| local.Command := local.Command cmd; local.Env := local.Env cmd;
       local.WorkDir := local.WorkDir cmd;
       local.Timeout := 30 * time.Second |}
  else cmd.

Section with_shell.

(** The operating system: the run of a command line with an environment
    and in a working directory ([""] for the directory of the agent). *)
Variable sh : string -> option (gmap string string) -> string -> process.

Definition ExecuteCommand (cmd : local.LocalCommand) : result LocalResult :=
  let cmd := with_default_timeout cmd in
  let p := sh (local.Command cmd) (process_env (local.Env cmd))
             (local.WorkDir cmd) in
  match start_error p with
  | Some e => Err ("failed to start command: " +:+ e)
  | None =>
      if ctx_done p then Err "command timed out"
      else
        Ok {| ExitCode :=
                match wait p with
                | None => 0
                | Some (ExitError code) => code
                | Some (OtherError _) => -1
                end;
              Stdout := stdout p;
              Stderr :=
                match wait p with
                | Some (OtherError msg) =>
                    stderr p +:+ String (Ascii.ascii_of_nat 10) "Execution error: " +:+ msg
                | _ => stderr p
                end;
              Duration := duration p |}
  end.

End with_shell.

(** A shell in which every command prints its own text and exits with
    code 0. *)
Definition echo_shell (command : string)
    (env : option (gmap string string)) (dir : string) : process :=
  {| start_error := None; ctx_done := false; wait := None;
     stdout := command; stderr := ""; duration := "1ms" |}.

End local_exec.

(** ** The replies to the system types *)

(** The map that [handleMessage] of the TCP transport sends in reply to
    an envelope of a system type; none for [identification_success]. *)
Definition tcp_system_reply (c : tcp.TCPClient) (now : Z) (msgType : string)
  : option jsonmap :=
  if decide (msgType = "status_request") then
    Some (<["type" := Str "status_response"]>
           (<["connected" := Bool (tcp.IsConnected c)]>
             (<["client_id" := Str "tcp-client"]>
               (<["timestamp" := Int now]> ∅))))
  else if decide (msgType = "ping") then
    Some (<["type" := Str "pong"]> (<["timestamp" := Int now]> ∅))
  else None.

(** The message that [handleMessage] of the WebSocket transport sends in
    reply to an envelope of a system type, with the correlation id of the
    envelope; none for [identification_success]. *)
Definition ws_system_reply (c : websocket.WSClient) (now : Z)
    (message : websocket.WSMessage) : option websocket.WSMessage :=
  if decide (websocket.Type_ message = "status_request") then
    Some {| websocket.Type_ := "status_response";
            websocket.Payload :=
              Map (<["connected" := Bool (websocket.IsConnected c)]>
                    (<["client_id" := Str "websocket-client"]>
                      (<["timestamp" := Int now]> ∅)));
            websocket.ID := websocket.ID message |}
  else if decide (websocket.Type_ message = "ping") then
    Some {| websocket.Type_ := "pong";
            websocket.Payload := Map (<["timestamp" := Int now]> ∅);
            websocket.ID := websocket.ID message |}
  else None.

(** ** The two timers *)

Module timing.



End timing.

(** * Properties *)

(** ** Machine integers *)

Lemma wrap64_id z : int64.in_range z -> int64.wrap64 z = z.
Proof.
  unfold int64.in_range, int64.min_int, int64.max_int, int64.wrap64.
  intros Hz. rewrite Z.mod_small; lia.
Qed.

Lemma wrap64_range z : int64.in_range (int64.wrap64 z).
Proof.
  unfold int64.in_range, int64.min_int, int64.max_int, int64.wrap64.
  pose proof (Z.mod_pos_bound (z + 2 ^ 63) (2 ^ 64)). lia.
Qed.

(** ** The conversion of the multiplier *)

Lemma Qpower_2_pos (e : Z) : 0 <= e -> (Qpower 2 e == inject_Z (2 ^ e))%Q.
Proof.
  intros He. change 2%Q with (inject_Z 2). symmetry.
  now apply Zpower_Qpower.
Qed.

Lemma Qpower_2_neg (e : Z) :
  e < 0 -> (Qpower 2 e * inject_Z (2 ^ (- e)) == 1)%Q.
Proof.
  intros He. replace e with (- - e) at 1 by lia.
  rewrite Qpower_opp, Qpower_2_pos by lia.
  rewrite Qmult_comm. apply Qmult_inv_r.
  intros H. assert (H0 : 2 ^ (- e) = 0) by (apply inject_Z_injective; exact H).
  pose proof (Z.pow_pos_nonneg 2 (- e)). lia.
Qed.

(** The magnitude of a finite number whose value is the integer [z]. *)
Lemma float64_magnitude (m : positive) (e z : Z) :
  (inject_Z (Z.pos m) * Qpower 2 e == inject_Z z)%Q ->
  (if 0 <=? e then Z.pos m * 2 ^ e else Z.pos m / 2 ^ (- e)) = z.
Proof.
  intros H. destruct (Z.leb_spec 0 e) as [He|He].
  - rewrite Qpower_2_pos, <- inject_Z_mult in H by lia.
    apply inject_Z_injective; exact H.
  - assert (Hz : Z.pos m = z * 2 ^ (- e)).
    { apply inject_Z_injective. rewrite inject_Z_mult.
      rewrite <- H, <- Qmult_assoc, Qpower_2_neg by lia. ring. }
    rewrite Hz. apply Z.div_mul.
    pose proof (Z.pow_pos_nonneg 2 (- e)). lia.
Qed.

(** An integer-valued multiplier converts to that integer. *)
Lemma Duration_of_integral (f : spec_float) (q : Q) (m : Z) :
  time.float64_to_Q f = Some q -> (q == inject_Z m)%Q ->
  int64.in_range m -> time.Duration_of_float64 f = m.
Proof.
  intros Hf Hq [Hlo Hhi]. unfold time.Duration_of_float64.
  assert (Ht : time.float64_trunc f = Some m).
  { destruct f as [s|s| |s p e]; simpl in *; try discriminate.
    - inversion Hf; subst q. f_equal. symmetry.
      apply inject_Z_injective. symmetry. exact Hq.
    - inversion Hf; subst q. f_equal. destruct s.
      + rewrite (float64_magnitude p e (- m)); [lia|].
        rewrite inject_Z_opp, <- Hq. ring.
      + now apply float64_magnitude. }
  rewrite Ht.
  destruct (Z.leb_spec int64.min_int m), (Z.leb_spec m int64.max_int);
    simpl; lia.
Qed.

(** ** The supervisor loop *)

Section supervisor_facts.

Import config supervisor.

Variable r : Reconnect.

Lemma backoff_loop_exact (n : nat) (m d : Z) :
  (forall i : nat, (i <= n)%nat -> int64.in_range (d * m ^ Z.of_nat i)) ->
  backoff_loop n m d = d * m ^ Z.of_nat n.
Proof.
  revert d. induction n as [|n IH]; intros d Hr; simpl backoff_loop.
  - change (Z.of_nat 0) with 0. lia.
  - assert (H1 : int64.in_range (d * m)).
    { specialize (Hr 1%nat). change (Z.of_nat 1) with 1 in Hr.
      rewrite Z.pow_1_r in Hr. apply Hr. lia. }
    rewrite (wrap64_id _ H1), IH.
    + rewrite Nat2Z.inj_succ, Z.pow_succ_r by lia. ring.
    + intros i Hi. specialize (Hr (S i)).
      rewrite Nat2Z.inj_succ, Z.pow_succ_r in Hr by lia.
      replace (d * m * m ^ Z.of_nat i) with (d * (m * m ^ Z.of_nat i)) by ring.
      apply Hr. lia.
Qed.

(** Without overflow, the delay after the [n+1]-th failure in a row is
    the capped product. *)
Lemma backoff_delay_exact (n : nat) (m : Z) :
  time.Duration_of_float64 (BackoffMultiplier r) = m ->
  (forall i : nat, (i <= n)%nat ->
     int64.in_range (InitialDelay r * m ^ Z.of_nat i)) ->
  backoff_delay r (Z.of_nat n + 1) =
  Z.min (InitialDelay r * m ^ Z.of_nat n) (MaxDelay r).
Proof.
  intros Hm Hr. unfold backoff_delay.
  replace (Z.to_nat (Z.of_nat n + 1 - 1)) with n by lia.
  rewrite Hm, backoff_loop_exact by assumption.
  destruct (Z.gtb_spec (InitialDelay r * m ^ Z.of_nat n) (MaxDelay r)); lia.
Qed.

Lemma connects_failing_trace (a : Z) (n : nat) :
  length (connects (failing_trace r a n)) = S n.
Proof.
  revert a. induction n as [|n IH]; intros a; simpl; [reflexivity|].
  unfold connects in IH. now rewrite IH.
Qed.

Lemma sleeps_failing_trace (a : Z) (n i : nat) :
  (i < n)%nat ->
  sleeps (failing_trace r a n) !! i
  = Some (backoff_delay r (a + 1 + Z.of_nat i)).
Proof.
  revert a i. induction n as [|n IH]; intros a i Hi; [lia|].
  destruct i as [|i]; simpl.
  - do 2 f_equal. lia.
  - unfold sleeps in IH. rewrite IH by lia. do 2 f_equal. lia.
Qed.

Lemma length_sleeps_failing_trace (a : Z) (n : nat) :
  length (sleeps (failing_trace r a n)) = n.
Proof.
  revert a. induction n as [|n IH]; intros a; simpl; [reflexivity|].
  unfold sleeps in IH. now rewrite IH.
Qed.

(** A run of failures when reconnection is enabled: the loop sleeps
    [n] times, where [n + 1] failures reach the limit, and returns. *)
Lemma run_failures (n k : nat) (a : Z) :
  Enabled r = true ->
  0 <= a -> a + 1 + Z.of_nat n <= int64.max_int ->
  n = Z.to_nat (maxReconnectAttempts r - a - 1) ->
  (n < k)%nat ->
  run r {| pc := LoopHead; reconnectAttempts := a |} (repeat ConnectErr k)
  = ({| pc := Returned; reconnectAttempts := a + 1 + Z.of_nat n |},
     failing_trace r a n).
Proof.
  intros He. revert k a.
  induction n as [|n IH]; intros k a Ha Hmax Hn Hk;
    (destruct k as [|k]; [lia|]); simpl repeat; simpl run;
    unfold step; simpl pc; simpl reconnectAttempts; rewrite He; simpl negb;
    cbv iota; rewrite wrap64_id
      by (unfold int64.in_range, int64.min_int, int64.max_int in *; lia).
  - destruct (Z.geb_spec (a + 1) (maxReconnectAttempts r)) as [_|Hlt];
      [|lia].
    destruct k; simpl; do 2 f_equal; lia.
  - destruct (Z.geb_spec (a + 1) (maxReconnectAttempts r)) as [Hge|_];
      [lia|].
    rewrite (IH k (a + 1)) by lia. simpl. do 2 f_equal. lia.
Qed.

Lemma step_counter_bounded (s s' : state) (o : observation)
    (acts : list action) :
  int64.in_range (MaxAttempts r) ->
  counter_bounded r s -> step r s o = Some (s', acts) ->
  counter_bounded r s'.
Proof.
  intros Hr [H0 Hb] Hs.
  assert (Hlim : maxReconnectAttempts r <= int64.max_int).
  { unfold maxReconnectAttempts, int64.in_range, int64.max_int in *.
    destruct (MaxAttempts r =? 0); lia. }
  assert (Hb' : pc s <> Returned -> reconnectAttempts s + 1 <= int64.max_int)
    by (intros H; specialize (Hb H); unfold int64.max_int in *; lia).
  unfold step in Hs. unfold counter_bounded.
  destruct s as [[] a], o; simpl in *; try discriminate;
    specialize (Hb ltac:(discriminate)); specialize (Hb' ltac:(discriminate));
    try (destruct (Enabled r); simpl in Hs);
    try rewrite wrap64_id in Hs
      by (unfold int64.in_range, int64.min_int, int64.max_int in *; lia);
    try destruct (Z.geb_spec (a + 1) (maxReconnectAttempts r));
    inversion Hs; subst; simpl; (split; [lia | intros; try congruence; lia]).
Qed.

Lemma initial_counter_bounded : counter_bounded r initial.
Proof. split; simpl; [lia|]. intros _. lia. Qed.

Lemma run_counter_bounded (os : list observation) (s s' : state)
    (tr : list action) :
  int64.in_range (MaxAttempts r) ->
  counter_bounded r s -> run r s os = (s', tr) -> counter_bounded r s'.
Proof.
  intros Hr. revert s s' tr.
  induction os as [|o os IH]; intros s s' tr Hb Hrun; simpl in Hrun.
  - now inversion Hrun; subst.
  - destruct (step r s o) as [[s1 acts]|] eqn:Hs.
    + destruct (run r s1 os) as [s2 acts2] eqn:Hrun1.
      inversion Hrun; subst. eapply IH; [|exact Hrun1].
      eapply step_counter_bounded; eauto.
    + now inversion Hrun; subst.
Qed.

End supervisor_facts.

(** ** The reconnect policy (C1, C6, C10) *)

Section reconnect_policy.

Import config supervisor.

Lemma inject_Z_min (a b : Z) :
  (inject_Z (Z.min a b) == Qmin (inject_Z a) (inject_Z b))%Q.
Proof.
  destruct (Z.le_ge_cases a b) as [H|H].
  - rewrite Z.min_l by assumption. symmetry. apply Q.min_l.
    now rewrite <- Zle_Qle.
  - rewrite Z.min_r by lia. symmetry. apply Q.min_r.
    rewrite <- Zle_Qle. lia.
Qed.

Lemma limit_in_range (r : Reconnect) :
  int64.in_range (MaxAttempts r) ->
  Z.max 1 (maxReconnectAttempts r) <= int64.max_int.
Proof.
  unfold maxReconnectAttempts, int64.in_range, int64.min_int, int64.max_int.
  destruct (MaxAttempts r =? 0); lia.
Qed.

(** A run in which every attempt fails, from the start of the loop. *)
Lemma run_all_failures (r : Reconnect) (url : string) (k : nat) :
  url <> "" -> Enabled r = true -> int64.in_range (MaxAttempts r) ->
  (attempt_limit r <= k)%nat ->
  startConnectionClient url r (repeat ConnectErr k)
  = ({| pc := Returned;
        reconnectAttempts := Z.of_nat (attempt_limit r) |},
     failing_trace r 0 (attempt_limit r - 1)).
Proof.
  intros Hurl He Hr Hk. unfold startConnectionClient.
  destruct (decide (url = "")) as [|_]; [contradiction|].
  pose proof (limit_in_range r Hr) as Hlim. unfold attempt_limit in *.
  unfold initial.
  rewrite (run_failures r (Z.to_nat (Z.max 1 (maxReconnectAttempts r)) - 1) k 0)
    by (try assumption; lia).
  do 2 f_equal. lia.
Qed.

(** C1, as amended.  Reconnection enabled, a multiplier whose value is
    an integer [m], products [initial_delay * m^i] that fit in 64 bits:
    when every connect attempt fails, the loop makes exactly
    [max(1, limit)] attempts, where [limit] is [max_attempts], or 5 when
    that is 0 (so no more than [max_attempts] when it is at least 1), gives
    up, and the [n]-th delay slept (from 0) is
    [min(initial_delay * m^n, max_delay)]. *)
Theorem C1_backoff_delays_and_attempt_limit
    (r : Reconnect) (url : string) (q : Q) (m : Z) (k : nat) :
  url <> "" ->
  Enabled r = true ->
  int64.in_range (MaxAttempts r) ->
  time.float64_to_Q (BackoffMultiplier r) = Some q ->
  (q == inject_Z m)%Q ->
  int64.in_range m ->
  (forall i : nat, (i < attempt_limit r - 1)%nat ->
     int64.in_range (InitialDelay r * m ^ Z.of_nat i)) ->
  (attempt_limit r <= k)%nat ->
  let res := startConnectionClient url r (repeat ConnectErr k) in
  pc res.1 = Returned /\
  length (connects res.2) = attempt_limit r /\
  (1 <= MaxAttempts r ->
   Z.of_nat (length (connects res.2)) = MaxAttempts r) /\
  length (sleeps res.2) = (attempt_limit r - 1)%nat /\
  forall n : nat, (n < attempt_limit r - 1)%nat ->
    exists d : Z,
      sleeps res.2 !! n = Some d /\ (inject_Z d == spec_delay r q n)%Q.
Proof.
  intros Hurl He Hr Hq Hqm Hm Hfit Hk res. subst res.
  rewrite run_all_failures by assumption. simpl fst. simpl snd.
  split; [reflexivity|].
  split. { rewrite connects_failing_trace. unfold attempt_limit. lia. }
  split.
  { intros H1. rewrite connects_failing_trace.
    unfold attempt_limit, maxReconnectAttempts.
    destruct (Z.eqb_spec (MaxAttempts r) 0); lia. }
  split; [apply length_sleeps_failing_trace|].
  intros n Hn. eexists. split; [now apply sleeps_failing_trace|].
  replace (0 + 1 + Z.of_nat n) with (Z.of_nat n + 1) by lia.
  rewrite (backoff_delay_exact r n m).
  - rewrite inject_Z_min. unfold spec_delay.
    rewrite inject_Z_mult, Zpower_Qpower by lia. now rewrite Hqm.
  - now apply (Duration_of_integral _ q).
  - intros i Hi. apply Hfit. lia.
Qed.

(** When reconnection is disabled, the first failure ends the loop. *)
Lemma run_failure_disabled (r : Reconnect) (k : nat) :
  Enabled r = false ->
  run r initial (repeat ConnectErr (S k))
  = ({| pc := Returned; reconnectAttempts := 0 |}, [ActConnect 1]).
Proof.
  intros He. simpl. unfold step. simpl. rewrite He. simpl.
  now destruct k.
Qed.

(** C10.  A configured [max_attempts] of 0 is replaced by 5: the limit
    of the loop is 5 and, reconnection enabled, a run of failures makes
    exactly five attempts before it gives up. *)
Theorem C10_zero_max_attempts_defaults_to_five
    (r : Reconnect) (url : string) (k : nat) :
  MaxAttempts r = 0 ->
  maxReconnectAttempts r = 5 /\
  (url <> "" -> Enabled r = true -> (5 <= k)%nat ->
   let res := startConnectionClient url r (repeat ConnectErr k) in
   pc res.1 = Returned /\ length (connects res.2) = 5%nat).
Proof.
  intros H0.
  assert (H5 : maxReconnectAttempts r = 5)
    by (unfold maxReconnectAttempts; now rewrite H0).
  split; [exact H5|]. intros Hurl He Hk res. subst res.
  assert (Hl : attempt_limit r = 5%nat)
    by (unfold attempt_limit; now rewrite H5).
  rewrite run_all_failures; try assumption.
  - simpl. rewrite connects_failing_trace, Hl. now split.
  - rewrite H0. unfold int64.in_range, int64.min_int, int64.max_int. lia.
  - now rewrite Hl.
Qed.

(** C6, as amended.  In every execution of the loop, a step sets the
    counter to 0 when a connect succeeds, adds one to it when a connect
    fails and reconnection is enabled, and leaves it as it is otherwise,
    in particular when the connection is lost while connected; only a
    successful connect brings a counter that is not 0 back to 0. *)
Theorem C6_counter_updates
    (r : Reconnect) (os : list observation) (s s' : state)
    (tr acts : list action) (o : observation) :
  int64.in_range (MaxAttempts r) ->
  run r initial os = (s, tr) ->
  step r s o = Some (s', acts) ->
  reconnectAttempts s' =
    match o with
    | ConnectOk => 0
    | ConnectErr =>
        if Enabled r then reconnectAttempts s + 1 else reconnectAttempts s
    | CtxDone | ConnLost | TimerFired => reconnectAttempts s
    end /\
  (reconnectAttempts s <> 0 -> reconnectAttempts s' = 0 -> o = ConnectOk).
Proof.
  intros Hr Hrun Hs.
  pose proof (run_counter_bounded r os _ _ _ Hr
                (initial_counter_bounded r) Hrun) as [H0 Hb].
  pose proof (limit_in_range r Hr) as Hlim.
  unfold step in Hs.
  destruct s as [[] a], o; simpl in *; try discriminate;
    specialize (Hb ltac:(discriminate));
    try (destruct (Enabled r); simpl in Hs);
    try rewrite wrap64_id in Hs
      by (unfold int64.in_range, int64.min_int, int64.max_int in *; lia);
    try destruct (Z.geb_spec (a + 1) (maxReconnectAttempts r));
    inversion Hs; subst; simpl;
    (split; [reflexivity | intros; lia || reflexivity]).
Qed.

End reconnect_policy.

(** Scenario A: three failed attempts, delays of 1 s and 2 s, no fourth
    attempt. *)
Lemma C1_witness :
  let res :=
    supervisor.startConnectionClient "ws://hub:8080" supervisor.scenario_A
      (repeat supervisor.ConnectErr 5) in
  supervisor.pc res.1 = supervisor.Returned /\
  length (supervisor.connects res.2) = 3%nat /\
  (1 <= 3 -> Z.of_nat (length (supervisor.connects res.2)) = 3) /\
  length (supervisor.sleeps res.2) = 2%nat /\
  forall n : nat, (n < 2)%nat ->
    exists d : Z,
      supervisor.sleeps res.2 !! n = Some d /\
      (inject_Z d == supervisor.spec_delay supervisor.scenario_A 2 n)%Q.
Proof.
  apply (C1_backoff_delays_and_attempt_limit supervisor.scenario_A
           "ws://hub:8080" 2%Q 2 5).
  - discriminate.
  - reflexivity.
  - split; discriminate.
  - reflexivity.
  - reflexivity.
  - split; discriminate.
  - intros i Hi. destruct i as [|[|i]]; [split; discriminate ..|].
    exfalso. vm_compute in Hi. lia.
  - vm_compute. lia.
Defined.

(** C1 as stated fails: with [max_attempts = 0] five attempts are made,
    and with the multiplier 1.5 the second delay is 1 s, not 1.5 s. *)
Lemma C1_counterexample :
  let r := supervisor.policy_fractional in
  let res :=
    supervisor.startConnectionClient "ws://hub:8080" r
      (repeat supervisor.ConnectErr 8) in
  supervisor.pc res.1 = supervisor.Returned /\
  length (supervisor.connects res.2) = 5%nat /\
  ~ Z.of_nat (length (supervisor.connects res.2)) <= config.MaxAttempts r /\
  (exists q : Q,
     time.float64_to_Q (config.BackoffMultiplier r) = Some q /\
     (q == 3 # 2)%Q) /\
  supervisor.sleeps res.2 !! 1%nat = Some (1 * time.Second) /\
  ~ (inject_Z (1 * time.Second) == supervisor.spec_delay r (3 # 2) 1)%Q.
Proof.
  cbv zeta. split; [reflexivity|]. split; [reflexivity|].
  split; [vm_compute; intros H; now apply H|].
  split; [eexists; split; [reflexivity|reflexivity]|].
  split; [reflexivity|].
  intros H. vm_compute in H. discriminate.
Qed.

Lemma C10_witness :
  supervisor.maxReconnectAttempts supervisor.policy_fractional = 5 /\
  ("ws://hub:8080" <> "" ->
   config.Enabled supervisor.policy_fractional = true -> (5 <= 8)%nat ->
   let res :=
     supervisor.startConnectionClient "ws://hub:8080"
       supervisor.policy_fractional (repeat supervisor.ConnectErr 8) in
   supervisor.pc res.1 = supervisor.Returned /\
   length (supervisor.connects res.2) = 5%nat).
Proof.
  apply (C10_zero_max_attempts_defaults_to_five supervisor.policy_fractional
           "ws://hub:8080" 8).
  reflexivity.
Defined.

(** After a second failure in a row the counter is 2. *)
Lemma C6_witness :
  supervisor.reconnectAttempts
    {| supervisor.pc := supervisor.LoopHead;
       supervisor.reconnectAttempts := 2 |} = 1 + 1.
Proof.
  refine (proj1 _).
  eapply (C6_counter_updates supervisor.scenario_A [supervisor.ConnectErr]
           {| supervisor.pc := supervisor.LoopHead;
              supervisor.reconnectAttempts := 1 |}
           {| supervisor.pc := supervisor.LoopHead;
              supervisor.reconnectAttempts := 2 |}
           [supervisor.ActConnect 1; supervisor.ActSleep (1 * time.Second)]
           [supervisor.ActConnect 2; supervisor.ActSleep (2 * time.Second)]
           supervisor.ConnectErr).
  - split; discriminate.
  - reflexivity.
  - reflexivity.
Defined.

(** C6 as stated fails: a connection lost while connected leaves the
    counter at 0. *)
Lemma C6_counterexample :
  let connected :=
    (supervisor.run supervisor.scenario_A supervisor.initial
       [supervisor.ConnectOk]).1 in
  let lost :=
    (supervisor.run supervisor.scenario_A supervisor.initial
       [supervisor.ConnectOk; supervisor.ConnLost]).1 in
  supervisor.pc connected = supervisor.KeepAlive /\
  supervisor.pc lost = supervisor.LoopHead /\
  supervisor.reconnectAttempts lost = 0 /\
  supervisor.reconnectAttempts lost
    <> supervisor.reconnectAttempts connected + 1.
Proof.
  cbv zeta. repeat split; try reflexivity. discriminate.
Qed.

(** ** Command processing (C4, C9) *)

Section command_processing.

Import config client.

Variable cfg : Config.
Variable apiClient_ExecuteAPICall :
  string -> string -> option (gmap string string) -> value ->
  result proxy.APIResponse.
Variable apiClient_ExecuteHTTPRequest :
  string -> string -> option (gmap string string) -> value ->
  result proxy.APIResponse.
Variable localClient_ExecuteCommand :
  local.LocalCommand -> result LocalResult.
Variable time_ParseDuration : string -> result Z.

Local Abbreviation handleAPICall :=
  (handleAPICall apiClient_ExecuteAPICall).
Local Abbreviation handleHTTPRequest :=
  (handleHTTPRequest apiClient_ExecuteHTTPRequest).
Local Abbreviation handleSSHCommand :=
  (handleSSHCommand localClient_ExecuteCommand time_ParseDuration).
Local Abbreviation handleQuickCommand :=
  (handleQuickCommand cfg apiClient_ExecuteAPICall
     apiClient_ExecuteHTTPRequest localClient_ExecuteCommand
     time_ParseDuration).
Local Abbreviation processCommand :=
  (processCommand cfg apiClient_ExecuteAPICall
     apiClient_ExecuteHTTPRequest localClient_ExecuteCommand
     time_ParseDuration).

Local Ltac branches :=
  repeat (simpl; first [reflexivity | case_match]); simpl; try reflexivity.

Lemma handleAPICall_ID (command : Command.t) :
  CommandResponse.ID (handleAPICall command).1 = Command.ID command.
Proof. unfold client.handleAPICall. branches. Qed.

Lemma handleHTTPRequest_ID (command : Command.t) :
  CommandResponse.ID (handleHTTPRequest command).1 = Command.ID command.
Proof. unfold client.handleHTTPRequest. branches. Qed.

Lemma handleSSHCommand_ID (command : Command.t) :
  CommandResponse.ID (handleSSHCommand command).1 = Command.ID command.
Proof.
  unfold client.handleSSHCommand.
  destruct (as_map _); [|reflexivity].
  destruct (decide _); [reflexivity|].
  now destruct (localClient_ExecuteCommand _).
Qed.

Lemma handleQuickCommand_ID (command : Command.t) :
  CommandResponse.ID (handleQuickCommand command).1 = Command.ID command.
Proof.
  unfold client.handleQuickCommand.
  repeat (case_match; try reflexivity).
  - apply (handleAPICall_ID
             {| Command.Type_ := _; Command.Payload := _;
                Command.ID := Command.ID command |}).
  - apply (handleHTTPRequest_ID
             {| Command.Type_ := _; Command.Payload := _;
                Command.ID := Command.ID command |}).
  - apply (handleSSHCommand_ID
             {| Command.Type_ := _; Command.Payload := _;
                Command.ID := Command.ID command |}).
Qed.

(** C9.  Whatever the command, the configuration and the executors do,
    the response of [processCommand] carries the ID of the command. *)
Theorem C9_response_carries_command_ID (command : Command.t) :
  CommandResponse.ID (processCommand command).1 = Command.ID command.
Proof.
  unfold client.processCommand.
  repeat (case_match; try reflexivity);
    auto using handleAPICall_ID, handleHTTPRequest_ID, handleSSHCommand_ID,
      handleQuickCommand_ID.
Qed.

(** On the direct path a disabled type is refused before any executor
    is called, whatever the payload. *)
Lemma processCommand_disabled (command : Command.t) :
  enable_flag cfg (Command.Type_ command) = Some false ->
  processCommand command
  = (fail command (disabled_message (Command.Type_ command)), []).
Proof.
  unfold enable_flag, client.processCommand. intros H.
  repeat (destruct (decide _) as [E|_];
          [rewrite E; injection H as ->; reflexivity|]).
  discriminate.
Qed.

End command_processing.

(** C4: the quick-command path.  [ssh_command] is disabled in the
    configuration, yet the quick command that resolves to it reaches the
    executor, and the response is not the refusal of a disabled type. *)
Theorem C4_quick_command_reaches_disabled_executor
    (apiClient_ExecuteAPICall apiClient_ExecuteHTTPRequest :
       string -> string -> option (gmap string string) -> value ->
       result proxy.APIResponse)
    (localClient_ExecuteCommand : local.LocalCommand -> result LocalResult)
    (time_ParseDuration : string -> result Z) :
  let res :=
    client.processCommand sample.cfg_ssh_disabled apiClient_ExecuteAPICall
      apiClient_ExecuteHTTPRequest localClient_ExecuteCommand
      time_ParseDuration sample.quick_cleanup in
  client.enable_flag sample.cfg_ssh_disabled "ssh_command" = Some false /\
  res.2 = [client.ExecuteCommand
             {| local.Command := "rm -rf /tmp/cache"; local.Env := None;
                local.WorkDir := ""; local.Timeout := 0 |}] /\
  CommandResponse.Error res.1 <> client.disabled_message "ssh_command".
Proof.
  cbv zeta. split; [reflexivity|].
  vm_compute.
  destruct (localClient_ExecuteCommand _); split;
    first [reflexivity | discriminate].
Qed.

(** ** The message handlers of the transports (C3, C5) *)

Section tcp_router.

Variable json_Marshal : jsonmap -> result bytes.
Variable json_Unmarshal : bytes -> result jsonmap.

Local Abbreviation handleMessage :=
  (tcp.handleMessage json_Marshal json_Unmarshal).

Lemma tcp_identification_success (c : tcp.TCPClient) (data : bytes)
    (now : Z) (message : jsonmap) :
  json_Unmarshal data = Ok message ->
  message !! "type" = Some (Str "identification_success") ->
  handleMessage c data now = (c, []).
Proof.
  intros Hd Ht. unfold tcp.handleMessage. now rewrite Hd, Ht.
Qed.

Lemma tcp_status_request (c : tcp.TCPClient) (data : bytes) (now : Z)
    (message : jsonmap) :
  json_Unmarshal data = Ok message ->
  message !! "type" = Some (Str "status_request") ->
  exists (response : jsonmap) (e : option string),
    (handleMessage c data now).2 = [tcp.SendCall response e] /\
    response !! "type" = Some (Str "status_response").
Proof.
  intros Hd Ht. unfold tcp.handleMessage. rewrite Hd, Ht. simpl.
  destruct (tcp.SendCommand _ _ _) as [o c']. simpl. eauto.
Qed.

(** The reply to a ping: its type and its timestamp are top-level keys,
    and it has no other key. *)
Lemma tcp_ping (c : tcp.TCPClient) (data : bytes) (now : Z)
    (message : jsonmap) :
  json_Unmarshal data = Ok message ->
  message !! "type" = Some (Str "ping") ->
  exists e : option string,
    (handleMessage c data now).2
    = [tcp.SendCall
         (<["type" := Str "pong"]> (<["timestamp" := Int now]> ∅)) e].
Proof.
  intros Hd Ht. unfold tcp.handleMessage. rewrite Hd, Ht. simpl.
  destruct (tcp.SendCommand _ _ _) as [o c']. simpl. eauto.
Qed.

End tcp_router.

Section websocket_router.

Import websocket.

Variable json_Marshal : WSMessage -> result bytes.
Variable json_Unmarshal : bytes -> result WSMessage.

Local Abbreviation handleMessage :=
  (websocket.handleMessage json_Marshal json_Unmarshal).

Lemma ws_identification_success (c : WSClient) (data : bytes) (now : Z)
    (message : WSMessage) :
  json_Unmarshal data = Ok message ->
  Type_ message = "identification_success" ->
  handleMessage c data now = (c, []).
Proof.
  intros Hd Ht. unfold websocket.handleMessage. now rewrite Hd, Ht.
Qed.

Lemma ws_status_request (c : WSClient) (data : bytes) (now : Z)
    (message : WSMessage) :
  json_Unmarshal data = Ok message ->
  Type_ message = "status_request" ->
  exists (payload : value) (e : option string),
    (handleMessage c data now).2
    = [SendCall {| Type_ := "status_response"; Payload := payload;
                   ID := ID message |} e].
Proof.
  intros Hd Ht. unfold websocket.handleMessage. rewrite Hd, Ht. simpl.
  destruct (SendCommand _ _ _ _ _) as [o c']. simpl. eauto.
Qed.

(** The reply to a ping carries the timestamp as its payload and the
    correlation id of the ping. *)
Lemma ws_ping (c : WSClient) (data : bytes) (now : Z)
    (message : WSMessage) :
  json_Unmarshal data = Ok message ->
  Type_ message = "ping" ->
  exists e : option string,
    (handleMessage c data now).2
    = [SendCall {| Type_ := "pong";
                   Payload := Map (<["timestamp" := Int now]> ∅);
                   ID := ID message |} e].
Proof.
  intros Hd Ht. unfold websocket.handleMessage. rewrite Hd, Ht. simpl.
  destruct (SendCommand _ _ _ _ _) as [o c']. simpl. eauto.
Qed.

End websocket_router.

(** ** The outbound queue (C7) *)

Section tcp_queue.

Import tcp.

Variable json_Marshal : jsonmap -> result bytes.
Variable json_Unmarshal : bytes -> result jsonmap.

Lemma tcp_SendCommand_room (c : TCPClient) (payload : jsonmap)
    (data : bytes) :
  connected c = true -> json_Marshal payload = Ok data ->
  (length (sendChan c) < sendChanCap)%nat ->
  SendCommand json_Marshal c payload
  = ({| err := None; elapsed := 0 |},
     {| conn := conn c; connected := connected c;
        sendChan := sendChan c ++ [data];
        commandHandler := commandHandler c |}).
Proof.
  intros Hc Hm Hlen. unfold SendCommand, IsConnected, chan.send_or_timeout.
  rewrite Hc, Hm. simpl.
  destruct (Nat.ltb_spec (length (sendChan c)) sendChanCap); [reflexivity|lia].
Qed.

Lemma tcp_SendCommand_full (c : TCPClient) (payload : jsonmap)
    (data : bytes) :
  connected c = true -> json_Marshal payload = Ok data ->
  (sendChanCap <= length (sendChan c))%nat ->
  SendCommand json_Marshal c payload
  = ({| err := Some "send timeout"; elapsed := sendTimeout |}, c).
Proof.
  intros Hc Hm Hlen. unfold SendCommand, IsConnected, chan.send_or_timeout.
  rewrite Hc, Hm. simpl.
  destruct (Nat.ltb_spec (length (sendChan c)) sendChanCap); [lia|reflexivity].
Qed.

(** A round of the writer takes the head of the queue and leaves the
    rest of the client as it is. *)
Lemma tcp_writePump_step_takes_head (c c' : TCPClient) (write_ok : bool)
    (st : pump_status) (es : list effect) :
  writePump_step c write_ok = Some (st, c', es) ->
  exists data : bytes,
    sendChan c = data :: sendChan c' /\ connected c' = connected c /\
    conn c' = conn c /\
    (es = [] \/ exists k, conn c = Some k /\ es = [Wrote (handle k) data]).
Proof.
  unfold writePump_step, chan.recv. intros H.
  destruct (sendChan c) as [|data rest] eqn:Hq; [discriminate|].
  exists data.
  destruct (conn c) as [k|] eqn:Hk;
    [destruct (negb (closed k) && write_ok)|];
    inversion H; subst; simpl; repeat split; eauto.
Qed.

End tcp_queue.

Section websocket_queue.

Import websocket.

Variable json_Marshal : WSMessage -> result bytes.
Variable json_Unmarshal : bytes -> result WSMessage.

Lemma ws_SendCommand_room (c : WSClient) (cmdType id : string)
    (payload : value) (data : bytes) :
  connected c = true ->
  json_Marshal {| Type_ := cmdType; Payload := payload; ID := id |}
  = Ok data ->
  (length (sendChan c) < sendChanCap)%nat ->
  SendCommand json_Marshal c cmdType payload id
  = ({| err := None; elapsed := 0 |},
     with_sendChan c (sendChan c ++ [data])).
Proof.
  intros Hc Hm Hlen. unfold SendCommand, IsConnected, chan.send_or_timeout.
  rewrite Hc, Hm. simpl.
  destruct (Nat.ltb_spec (length (sendChan c)) sendChanCap); [reflexivity|lia].
Qed.

Lemma ws_SendCommand_full (c : WSClient) (cmdType id : string)
    (payload : value) (data : bytes) :
  connected c = true ->
  json_Marshal {| Type_ := cmdType; Payload := payload; ID := id |}
  = Ok data ->
  (sendChanCap <= length (sendChan c))%nat ->
  SendCommand json_Marshal c cmdType payload id
  = ({| err := Some "send timeout"; elapsed := sendTimeout |}, c).
Proof.
  intros Hc Hm Hlen. unfold SendCommand, IsConnected, chan.send_or_timeout.
  rewrite Hc, Hm. simpl.
  destruct (Nat.ltb_spec (length (sendChan c)) sendChanCap); [lia|reflexivity].
Qed.

Lemma ws_writePump_step_takes_head (c c' : WSClient) (write_ok : bool)
    (st : pump_status) (es : list effect) :
  writePump_step c write_ok = Some (st, c', es) ->
  exists data : bytes,
    sendChan c = data :: sendChan c' /\ connected c' = connected c /\
    conn c' = conn c /\
    (es = [] \/
     exists k, conn c = Some k /\ es = [Wrote (handle k) (TextMessage data)]).
Proof.
  unfold writePump_step, chan.recv. intros H.
  destruct (sendChan c) as [|data rest] eqn:Hq; [discriminate|].
  exists data.
  destruct (conn c) as [k|] eqn:Hk;
    [destruct (negb (closed k) && write_ok)|];
    inversion H; subst; simpl; repeat split; eauto.
Qed.

End websocket_queue.

(** ** The system types and their replies (C3) *)

(** C3.  On both transports, an inbound envelope of a reserved system
    type never reaches the injected handler, and what [handleMessage]
    returns is fixed: for [identification_success] the client as it was and
    no effect; for [status_request] and [ping] the client and the error
    that one [SendCommand] of the [status_response] or of the [pong]
    returns, and nothing else.  On a connected client with room in its
    queue the encoded reply is then the last element of the queue. *)
Theorem C3_system_types_never_reach_handler
    (tcp_Marshal : jsonmap -> result bytes)
    (tcp_Unmarshal : bytes -> result jsonmap)
    (ws_Marshal : websocket.WSMessage -> result bytes)
    (ws_Unmarshal : bytes -> result websocket.WSMessage)
    (tc : tcp.TCPClient) (wc : websocket.WSClient)
    (tdata wdata : bytes) (now : Z)
    (tmessage : jsonmap) (wmessage : websocket.WSMessage)
    (msgType : string) :
  system_type msgType ->
  tcp_Unmarshal tdata = Ok tmessage ->
  tmessage !! "type" = Some (Str msgType) ->
  ws_Unmarshal wdata = Ok wmessage ->
  websocket.Type_ wmessage = msgType ->
  let tres := tcp.handleMessage tcp_Marshal tcp_Unmarshal tc tdata now in
  let wres := websocket.handleMessage ws_Marshal ws_Unmarshal wc wdata now in
  tcp.handler_calls tres.2 = [] /\
  websocket.handler_calls wres.2 = [] /\
  (msgType = "identification_success" -> tres = (tc, []) /\ wres = (wc, [])) /\
  tres = match tcp_system_reply tc now msgType with
         | Some r =>
             let '(o, c') := tcp.SendCommand tcp_Marshal tc r in
             (c', [tcp.SendCall r (err o)])
         | None => (tc, [])
         end /\
  wres = match ws_system_reply wc now wmessage with
         | Some r =>
             let '(o, c') :=
               websocket.SendCommand ws_Marshal wc (websocket.Type_ r)
                 (websocket.Payload r) (websocket.ID r) in
             (c', [websocket.SendCall r (err o)])
         | None => (wc, [])
         end /\
  (msgType <> "identification_success" ->
   is_Some (tcp_system_reply tc now msgType) /\
   is_Some (ws_system_reply wc now wmessage)) /\
  (forall r d,
     tcp_system_reply tc now msgType = Some r ->
     tcp.connected tc = true ->
     (length (tcp.sendChan tc) < tcp.sendChanCap)%nat ->
     tcp_Marshal r = Ok d ->
     tres = ({| tcp.conn := tcp.conn tc; tcp.connected := tcp.connected tc;
                tcp.sendChan := tcp.sendChan tc ++ [d];
                tcp.commandHandler := tcp.commandHandler tc |},
             [tcp.SendCall r None])) /\
  (forall r d,
     ws_system_reply wc now wmessage = Some r ->
     websocket.connected wc = true ->
     (length (websocket.sendChan wc) < websocket.sendChanCap)%nat ->
     ws_Marshal r = Ok d ->
     wres = (websocket.with_sendChan wc (websocket.sendChan wc ++ [d]),
             [websocket.SendCall r None])).
Proof.
  intros Hsys Htd Htt Hwd Hwt tres wres.
  assert (Ht : tres = match tcp_system_reply tc now msgType with
                      | Some r =>
                          let '(o, c') := tcp.SendCommand tcp_Marshal tc r in
                          (c', [tcp.SendCall r (err o)])
                      | None => (tc, [])
                      end).
  { subst tres. unfold tcp.handleMessage, tcp_system_reply.
    rewrite Htd, Htt. simpl.
    destruct Hsys as [-> | [-> | ->]]; reflexivity. }
  assert (Hw : wres = match ws_system_reply wc now wmessage with
                      | Some r =>
                          let '(o, c') :=
                            websocket.SendCommand ws_Marshal wc
                              (websocket.Type_ r) (websocket.Payload r)
                              (websocket.ID r) in
                          (c', [websocket.SendCall r (err o)])
                      | None => (wc, [])
                      end).
  { subst wres. unfold websocket.handleMessage, ws_system_reply.
    rewrite Hwd, Hwt.
    destruct Hsys as [-> | [-> | ->]]; reflexivity. }
  split; [|split; [|split; [|split; [|split; [|split; [|split]]]]]].
  - rewrite Ht. destruct (tcp_system_reply tc now msgType); [|reflexivity].
    now destruct (tcp.SendCommand tcp_Marshal tc _).
  - rewrite Hw. destruct (ws_system_reply wc now wmessage); [|reflexivity].
    now destruct (websocket.SendCommand ws_Marshal wc _ _ _).
  - intros ->. rewrite Ht, Hw. unfold tcp_system_reply, ws_system_reply.
    rewrite Hwt. now split.
  - exact Ht.
  - exact Hw.
  - intros Hne. unfold tcp_system_reply, ws_system_reply. rewrite Hwt.
    destruct Hsys as [-> | [-> | ->]]; [contradiction| |]; split; simpl; eauto.
  - intros r d Hr Hc Hlen Hm. rewrite Ht, Hr.
    now rewrite (tcp_SendCommand_room _ _ _ _ Hc Hm Hlen).
  - intros r d Hr Hc Hlen Hm. rewrite Hw, Hr.
    assert (Hm' : ws_Marshal
                    {| websocket.Type_ := websocket.Type_ r;
                       websocket.Payload := websocket.Payload r;
                       websocket.ID := websocket.ID r |} = Ok d)
      by now destruct r.
    now rewrite (ws_SendCommand_room _ _ _ _ _ _ Hc Hm' Hlen).
Qed.

Lemma C3_witness :
  let tres :=
    tcp.handleMessage sample.tcp_Marshal sample.tcp_Unmarshal
      sample.tcp_connected (list_byte_of_string "status_request")
      1700000030 in
  let wres :=
    websocket.handleMessage sample.ws_Marshal sample.ws_Unmarshal
      sample.ws_connected (list_byte_of_string "status_request")
      1700000030 in
  tcp.handler_calls tres.2 = [] /\ websocket.handler_calls wres.2 = [].
Proof.
  pose proof (C3_system_types_never_reach_handler
                sample.tcp_Marshal sample.tcp_Unmarshal
                sample.ws_Marshal sample.ws_Unmarshal
                sample.tcp_connected sample.ws_connected
                (list_byte_of_string "status_request")
                (list_byte_of_string "status_request") 1700000030
                (<["type" := Str "status_request"]> (<["id" := Str "7"]> ∅))
                {| websocket.Type_ := "status_request";
                   websocket.Payload := Nil; websocket.ID := "7" |}
                "status_request") as H.
  cbv zeta in H.
  destruct H as (Ht & Hw & _).
  - right. left. reflexivity.
  - reflexivity.
  - reflexivity.
  - reflexivity.
  - reflexivity.
  - split; [exact Ht | exact Hw].
Defined.

(** ** A full queue (C7) *)

(** C7.  The outbound queue of each transport has capacity 256.  On a
    connected client whose queue is full, [SendCommand] is parked for the
    5 s of the timer and returns the timeout error; the client is left as
    it was, connected, with the message not in the queue.  After a round
    of the writer the same call succeeds without being parked and the
    message is at the end of the queue. *)
Theorem C7_full_queue_times_out_then_recovers
    (tcp_Marshal : jsonmap -> result bytes)
    (ws_Marshal : websocket.WSMessage -> result bytes)
    (tc tc' : tcp.TCPClient) (wc wc' : websocket.WSClient)
    (tpayload : jsonmap) (tdata : bytes)
    (cmdType id : string) (wpayload : value) (wdata : bytes)
    (tw ww : bool) (tst wst : pump_status)
    (tes : list tcp.effect) (wes : list websocket.effect) :
  tcp.connected tc = true ->
  websocket.connected wc = true ->
  length (tcp.sendChan tc) = tcp.sendChanCap ->
  length (websocket.sendChan wc) = websocket.sendChanCap ->
  tcp_Marshal tpayload = Ok tdata ->
  ws_Marshal {| websocket.Type_ := cmdType; websocket.Payload := wpayload;
                websocket.ID := id |} = Ok wdata ->
  tcp.writePump_step tc tw = Some (tst, tc', tes) ->
  websocket.writePump_step wc ww = Some (wst, wc', wes) ->
  (tcp.sendChanCap = 256%nat /\ websocket.sendChanCap = 256%nat /\
   tcp.sendChan tcp.NewTCPClient = [] /\
   websocket.sendChan websocket.NewWSClient = [] /\
   sendTimeout = 5 * time.Second) /\
  (tcp.SendCommand tcp_Marshal tc tpayload
   = ({| err := Some "send timeout"; elapsed := 5 * time.Second |}, tc) /\
   websocket.SendCommand ws_Marshal wc cmdType wpayload id
   = ({| err := Some "send timeout"; elapsed := 5 * time.Second |}, wc)) /\
  (exists tc'',
     tcp.SendCommand tcp_Marshal tc' tpayload
     = ({| err := None; elapsed := 0 |}, tc'') /\
     tcp.sendChan tc'' = tcp.sendChan tc' ++ [tdata] /\
     tcp.connected tc'' = true) /\
  (exists wc'',
     websocket.SendCommand ws_Marshal wc' cmdType wpayload id
     = ({| err := None; elapsed := 0 |}, wc'') /\
     websocket.sendChan wc'' = websocket.sendChan wc' ++ [wdata] /\
     websocket.connected wc'' = true).
Proof.
  intros Htc Hwc Htl Hwl Htm Hwm Htw Hww.
  split; [repeat split|]. split; [split|].
  - rewrite (tcp_SendCommand_full _ _ _ _ Htc Htm) by lia. reflexivity.
  - rewrite (ws_SendCommand_full _ _ _ _ _ _ Hwc Hwm) by lia. reflexivity.
  - split.
    + destruct (tcp_writePump_step_takes_head _ _ _ _ _ Htw)
        as (d & Hq & Hc & _).
      eexists. split; [apply tcp_SendCommand_room|]; try eassumption.
      * congruence.
      * rewrite Hq in Htl. simpl in Htl. lia.
      * simpl. split; [reflexivity|congruence].
    + destruct (ws_writePump_step_takes_head _ _ _ _ _ Hww)
        as (d & Hq & Hc & _).
      eexists. split; [apply ws_SendCommand_room|]; try eassumption.
      * congruence.
      * rewrite Hq in Hwl. simpl in Hwl. lia.
      * simpl. split; [reflexivity|congruence].
Qed.

Lemma C7_witness :
  tcp.SendCommand sample.tcp_Marshal sample.tcp_saturated sample.heartbeat
  = ({| err := Some "send timeout"; elapsed := 5 * time.Second |},
     sample.tcp_saturated) /\
  websocket.SendCommand sample.ws_Marshal sample.ws_saturated
    "heartbeat" Nil "heartbeat"
  = ({| err := Some "send timeout"; elapsed := 5 * time.Second |},
     sample.ws_saturated).
Proof.
  destruct (C7_full_queue_times_out_then_recovers
              sample.tcp_Marshal sample.ws_Marshal
              sample.tcp_saturated
              {| tcp.conn := tcp.conn sample.tcp_connected;
                 tcp.connected := true; tcp.sendChan := repeat [] 255;
                 tcp.commandHandler := None |}
              sample.ws_saturated
              (websocket.with_sendChan sample.ws_connected (repeat [] 255))
              sample.heartbeat (list_byte_of_string "heartbeat")
              "heartbeat" "heartbeat" Nil (list_byte_of_string "heartbeat")
              true true Running Running
              [tcp.Wrote 1 []]
              [websocket.Wrote 1 (websocket.TextMessage [])])
    as (_ & H & _).
  - reflexivity.
  - reflexivity.
  - reflexivity.
  - reflexivity.
  - reflexivity.
  - reflexivity.
  - reflexivity.
  - reflexivity.
  - exact H.
Defined.

(** ** Ping and pong (C5) *)

(** C5 on the TCP transport.  A connected client with room in its queue
    receives a ping that carries a correlation id: the handler is not
    called and a [pong] is enqueued, whose timestamp is a top-level key and
    which has neither an [id] nor a [payload]. *)
Theorem C5_tcp_pong_drops_correlation_id
    (json_Marshal : jsonmap -> result bytes)
    (json_Unmarshal : bytes -> result jsonmap)
    (c : tcp.TCPClient) (data d : bytes) (now : Z) (message : jsonmap)
    (X : string) :
  json_Unmarshal data = Ok message ->
  message !! "type" = Some (Str "ping") ->
  message !! "id" = Some (Str X) ->
  tcp.connected c = true ->
  (length (tcp.sendChan c) < tcp.sendChanCap)%nat ->
  let pong : jsonmap :=
    <["type" := Str "pong"]> (<["timestamp" := Int now]> ∅) in
  json_Marshal pong = Ok d ->
  let res := tcp.handleMessage json_Marshal json_Unmarshal c data now in
  res.2 = [tcp.SendCall pong None] /\
  tcp.sendChan res.1 = tcp.sendChan c ++ [d] /\
  tcp.handler_calls res.2 = [] /\
  pong !! "timestamp" = Some (Int now) /\
  pong !! "id" = None /\
  pong !! "payload" = None.
Proof.
  intros Hd Ht Hid Hc Hlen pong Hm res. subst res.
  unfold tcp.handleMessage. rewrite Hd, Ht. simpl. fold pong.
  rewrite (tcp_SendCommand_room _ _ _ _ Hc Hm Hlen). simpl.
  repeat split; reflexivity.
Qed.

Lemma C5_witness :
  let pong : jsonmap :=
    <["type" := Str "pong"]> (<["timestamp" := Int 1700000030]> ∅) in
  let res :=
    tcp.handleMessage sample.tcp_Marshal sample.tcp_Unmarshal
      sample.tcp_connected (list_byte_of_string "ping") 1700000030 in
  res.2 = [tcp.SendCall pong None] /\
  tcp.sendChan res.1
  = tcp.sendChan sample.tcp_connected ++ [list_byte_of_string "pong"] /\
  tcp.handler_calls res.2 = [] /\
  pong !! "timestamp" = Some (Int 1700000030) /\
  pong !! "id" = None /\
  pong !! "payload" = None.
Proof.
  apply (C5_tcp_pong_drops_correlation_id
           sample.tcp_Marshal sample.tcp_Unmarshal sample.tcp_connected
           (list_byte_of_string "ping") (list_byte_of_string "pong")
           1700000030
           (<["type" := Str "ping"]> (<["id" := Str "7"]> ∅)) "7").
  - reflexivity.
  - reflexivity.
  - reflexivity.
  - reflexivity.
  - vm_compute. lia.
  - reflexivity.
Defined.

(** On the WebSocket transport the [pong] that is enqueued carries the
    timestamp as payload and the correlation id of the ping. *)
Lemma ws_ping_enqueued
    (json_Marshal : websocket.WSMessage -> result bytes)
    (json_Unmarshal : bytes -> result websocket.WSMessage)
    (c : websocket.WSClient) (data d : bytes) (now : Z)
    (message : websocket.WSMessage) :
  json_Unmarshal data = Ok message ->
  websocket.Type_ message = "ping" ->
  websocket.connected c = true ->
  (length (websocket.sendChan c) < websocket.sendChanCap)%nat ->
  let pong :=
    {| websocket.Type_ := "pong";
       websocket.Payload := Map (<["timestamp" := Int now]> ∅);
       websocket.ID := websocket.ID message |} in
  json_Marshal pong = Ok d ->
  let res := websocket.handleMessage json_Marshal json_Unmarshal c data now in
  res.2 = [websocket.SendCall pong None] /\
  websocket.sendChan res.1 = websocket.sendChan c ++ [d] /\
  websocket.handler_calls res.2 = [].
Proof.
  intros Hd Ht Hc Hlen pong Hm res. subst res.
  unfold websocket.handleMessage. rewrite Hd, Ht. simpl.
  rewrite (ws_SendCommand_room _ _ _ _ _ _ Hc Hm Hlen). simpl.
  repeat split; reflexivity.
Qed.

(** ** Keepalive (C8) *)











(** ** Identification (C2) *)

(** On a client whose queue is empty, the identification is what the
    writer writes first. *)
Lemma tcp_identification_first_on_empty_queue
    (json_Marshal : jsonmap -> result bytes)
    (c : tcp.TCPClient) (h : nat) (clientID : string) (now : Z) (d : bytes) :
  tcp.sendChan c = [] ->
  json_Marshal (tcp.identification clientID now) = Ok d ->
  let c' := (tcp.Connect json_Marshal c (Ok h) clientID now).1.2 in
  tcp.connected c' = true /\
  tcp.sendChan c' = [d] /\
  exists c'', tcp.writePump_step c' true
              = Some (Running, c'', [tcp.Wrote h d]).
Proof.
  intros Hq Hm c'. subst c'. unfold tcp.Connect.
  rewrite (tcp_SendCommand_room _ _ _ d); simpl; try rewrite Hq;
    try assumption; try reflexivity.
  - repeat split. unfold tcp.writePump_step. simpl. eauto.
  - unfold tcp.sendChanCap. simpl. lia.
Qed.

(** [Connect] puts the identification behind whatever the queue still
    holds, and the writer of the new session starts with the oldest
    element. *)
Lemma tcp_Connect_enqueues_behind
    (json_Marshal : jsonmap -> result bytes)
    (c : tcp.TCPClient) (h : nat) (clientID : string) (now : Z)
    (x d : bytes) (q : list bytes) :
  tcp.sendChan c = x :: q ->
  (length (tcp.sendChan c) < tcp.sendChanCap)%nat ->
  json_Marshal (tcp.identification clientID now) = Ok d ->
  let c' := (tcp.Connect json_Marshal c (Ok h) clientID now).1.2 in
  tcp.sendChan c' = x :: q ++ [d] /\
  exists c'', tcp.writePump_step c' true
              = Some (Running, c'', [tcp.Wrote h x]).
Proof.
  intros Hq Hlen Hm c'. subst c'. unfold tcp.Connect.
  rewrite (tcp_SendCommand_room _ _ _ d) by (assumption || reflexivity).
  simpl. rewrite Hq. split; [reflexivity|].
  unfold tcp.writePump_step. simpl. eauto.
Qed.

Lemma ws_Connect_enqueues_behind
    (json_Marshal : websocket.WSMessage -> result bytes)
    (c : websocket.WSClient) (h : nat) (clientID : string) (now : Z)
    (x d : bytes) (q : list bytes) :
  websocket.sendChan c = x :: q ->
  (length (websocket.sendChan c) < websocket.sendChanCap)%nat ->
  json_Marshal
    {| websocket.Type_ := "identification";
       websocket.Payload := websocket.identification clientID now;
       websocket.ID := "init" |} = Ok d ->
  let c' := (websocket.Connect json_Marshal c (Ok h) clientID now).1.2 in
  websocket.sendChan c' = x :: q ++ [d] /\
  exists c'', websocket.writePump_step c' true
              = Some (Running, c'',
                      [websocket.Wrote h (websocket.TextMessage x)]).
Proof.
  intros Hq Hlen Hm c'. subst c'. unfold websocket.Connect.
  rewrite (ws_SendCommand_room _ _ _ _ _ d) by (assumption || reflexivity).
  simpl. rewrite Hq. split; [reflexivity|].
  unfold websocket.writePump_step. simpl. eauto.
Qed.

(** C2: a reconnection with a message left in the queue.  The heartbeat
    that was enqueued in the first session is ahead of the identification
    of the second session in the queue, and it is what the writer of the
    second session writes first on the new connection. *)
Theorem C2_stale_heartbeat_precedes_identification
    (json_Marshal : jsonmap -> result bytes)
    (json_Unmarshal : bytes -> result jsonmap)
    (clientID : string) (heartbeat : jsonmap) (t0 t1 : Z)
    (d0 dh d1 : bytes) :
  json_Marshal (tcp.identification clientID t0) = Ok d0 ->
  json_Marshal heartbeat = Ok dh ->
  json_Marshal (tcp.identification clientID t1) = Ok d1 ->
  exists c : tcp.TCPClient,
    tcp.reconnect_after_writer_exit json_Marshal json_Unmarshal clientID
      heartbeat t0 t1
    = ([dh; d1], Some (Running, c, [tcp.Wrote 2 dh])).
Proof.
  intros H0 Hh H1.
  unfold tcp.reconnect_after_writer_exit, tcp.Connect, tcp.SendCommand,
    tcp.IsConnected, chan.send_or_timeout.
  simpl. rewrite H0. simpl. rewrite Hh. simpl. rewrite H1. simpl. eauto.
Qed.

Lemma C2_witness :
  exists c : tcp.TCPClient,
    tcp.reconnect_after_writer_exit sample.tcp_Marshal sample.tcp_Unmarshal
      "edge-1" sample.heartbeat 1700000000 1700000045
    = ([list_byte_of_string "heartbeat"; list_byte_of_string "identify"],
       Some (Running, c, [tcp.Wrote 2 (list_byte_of_string "heartbeat")])).
Proof.
  apply (C2_stale_heartbeat_precedes_identification
           sample.tcp_Marshal sample.tcp_Unmarshal "edge-1" sample.heartbeat
           1700000000 1700000045 (list_byte_of_string "identify")).
  - reflexivity.
  - reflexivity.
  - reflexivity.
Defined.

(** The same on the WebSocket transport. *)
Lemma ws_stale_heartbeat_precedes_identification
    (json_Marshal : websocket.WSMessage -> result bytes)
    (json_Unmarshal : bytes -> result websocket.WSMessage)
    (clientID : string) (heartbeat : value) (t0 t1 : Z)
    (d0 dh d1 : bytes) :
  json_Marshal
    {| websocket.Type_ := "identification";
       websocket.Payload := websocket.identification clientID t0;
       websocket.ID := "init" |} = Ok d0 ->
  json_Marshal
    {| websocket.Type_ := "heartbeat"; websocket.Payload := heartbeat;
       websocket.ID := "heartbeat" |} = Ok dh ->
  json_Marshal
    {| websocket.Type_ := "identification";
       websocket.Payload := websocket.identification clientID t1;
       websocket.ID := "init" |} = Ok d1 ->
  exists c : websocket.WSClient,
    websocket.reconnect_after_writer_exit json_Marshal json_Unmarshal
      clientID heartbeat t0 t1
    = ([dh; d1],
       Some (Running, c, [websocket.Wrote 2 (websocket.TextMessage dh)])).
Proof.
  intros H0 Hh H1.
  unfold websocket.reconnect_after_writer_exit, websocket.Connect,
    websocket.SendCommand, websocket.IsConnected, chan.send_or_timeout.
  simpl. rewrite H0. simpl. rewrite Hh. simpl. rewrite H1. simpl. eauto.
Qed.

(** * Further properties of the code *)

(** ** The address dialled *)

Lemma substring_0_0 (s : string) : substring 0 0 s = "".
Proof. now destruct s. Qed.

Lemma substring_whole (s : string) : substring 0 (String.length s) s = s.
Proof. induction s as [|a s IH]; simpl; [reflexivity|now rewrite IH]. Qed.

(** For the TCP protocol a [ws://] or [wss://] in front of a host that is
    not empty is cut off; the address of the other protocol is the URL as
    it is; a URL that is nothing but the scheme is left alone. *)
Theorem dial_address_strips_scheme (host url protocol : string) :
  host <> "" ->
  protocol <> "tcp" ->
  facade.dial_address "tcp" ("ws://" +:+ host) = host /\
  facade.dial_address "tcp" ("wss://" +:+ host) = host /\
  facade.dial_address protocol url = url /\
  facade.dial_address "tcp" "ws://" = "ws://" /\
  facade.dial_address "tcp" "wss://" = "wss://".
Proof.
  intros Hhost Hproto.
  assert (Hlen : exists n, String.length host = S n)
    by (destruct host; [contradiction|simpl; eauto]).
  destruct Hlen as [n Hn].
  repeat split.
  - unfold facade.dial_address, String.append. simpl.
    rewrite substring_0_0, Hn. simpl. rewrite <- Hn. apply substring_whole.
  - unfold facade.dial_address, String.append. simpl.
    rewrite substring_0_0, Hn. simpl. rewrite <- Hn. apply substring_whole.
  - unfold facade.dial_address. now destruct (decide (protocol = "tcp")).
Qed.

Lemma dial_address_strips_scheme_witness :
  facade.dial_address "tcp" "ws://hub.example:9000" = "hub.example:9000".
Proof.
  apply (dial_address_strips_scheme "hub.example:9000" "" "websocket");
    discriminate.
Defined.

(** ** Every run of the supervisor loop *)

Section supervisor_runs.

Import config supervisor.

Variable r : Reconnect.

Lemma step_connects_bounded (s s' : state) (o : observation)
    (acts : list action) :
  counter_bounded r s -> step r s o = Some (s', acts) ->
  Forall (fun n => 1 <= n <= Z.max 1 (maxReconnectAttempts r))
    (connects acts).
Proof.
  intros [H0 Hb] Hs. unfold step in Hs.
  destruct s as [[] a], o; simpl in *; try discriminate;
    specialize (Hb ltac:(discriminate));
    repeat match type of Hs with
           | context [if ?b then _ else _] => destruct b
           end;
    inversion Hs; subst; simpl;
    repeat constructor; lia.
Qed.

Lemma connects_app (tr1 tr2 : list action) :
  connects (tr1 ++ tr2) = connects tr1 ++ connects tr2.
Proof.
  induction tr1 as [|a tr1 IH]; [reflexivity|].
  simpl. unfold connects in *. simpl. destruct a; simpl; now rewrite ?IH.
Qed.

Lemma run_connects_bounded (os : list observation) (s s' : state)
    (tr : list action) :
  int64.in_range (MaxAttempts r) ->
  counter_bounded r s -> run r s os = (s', tr) ->
  Forall (fun n => 1 <= n <= Z.max 1 (maxReconnectAttempts r))
    (connects tr).
Proof.
  intros Hr. revert s s' tr.
  induction os as [|o os IH]; intros s s' tr Hb Hrun; simpl in Hrun.
  - inversion Hrun; subst. constructor.
  - destruct (step r s o) as [[s1 acts]|] eqn:Hs.
    + destruct (run r s1 os) as [s2 acts2] eqn:Hrun1.
      inversion Hrun; subst. rewrite connects_app.
      apply Forall_app. split.
      * eapply step_connects_bounded; eauto.
      * eapply IH; [|exact Hrun1]. eapply step_counter_bounded; eauto.
    + inversion Hrun; subst. constructor.
Qed.

(** Whatever the loop observes, the number of the attempt it logs for a
    [Connect] call lies between 1 and the limit. *)
Theorem attempt_numbers_within_limit (os : list observation) :
  int64.in_range (MaxAttempts r) ->
  Forall (fun n => 1 <= n <= Z.max 1 (maxReconnectAttempts r))
    (connects (run r initial os).2).
Proof.
  intros Hr. destruct (run r initial os) as [s tr] eqn:Hrun.
  eapply run_connects_bounded; eauto using initial_counter_bounded.
Qed.

(** Without a successful connect the loop never reaches its keep-alive
    loop: it sends no heartbeat and never calls [Disconnect]. *)
Theorem no_heartbeat_before_connect (os : list observation) :
  ConnectOk ∉ os ->
  let res := run r initial os in
  pc res.1 <> KeepAlive /\
  (ActHeartbeat ∉ res.2) /\ (ActDisconnect ∉ res.2).
Proof.
  intros Hok res. subst res.
  assert (Hgen : forall s, pc s <> KeepAlive ->
            pc (run r s os).1 <> KeepAlive /\
            (ActHeartbeat ∉ (run r s os).2) /\
            (ActDisconnect ∉ (run r s os).2)).
  { induction os as [|o os' IH]; intros s Hs; simpl.
    - repeat split; [assumption|apply not_elem_of_nil ..].
    - apply not_elem_of_cons in Hok as [Ho Hok'].
      destruct (step r s o) as [[s1 acts]|] eqn:Hstep; simpl;
        [|repeat split; [assumption|apply not_elem_of_nil ..]].
      assert (pc s1 <> KeepAlive /\ (ActHeartbeat ∉ acts) /\
              (ActDisconnect ∉ acts)) as (H1 & H2 & H3).
      { unfold step in Hstep.
        destruct s as [[] a], o; simpl in *; try discriminate;
          try congruence;
          repeat match type of Hstep with
                 | context [if ?b then _ else _] => destruct b
                 end;
          inversion Hstep; subst; simpl;
          (split; [discriminate|]);
          split; intros Hin; repeat (apply elem_of_cons in Hin as [Hin|Hin];
                                     [discriminate|]);
          now apply elem_of_nil in Hin. }
      destruct (IH Hok' s1 H1) as (I1 & I2 & I3).
      destruct (run r s1 os') as [s2 acts2]; simpl in *.
      repeat split; [assumption|..]; rewrite elem_of_app; tauto. }
  apply Hgen. discriminate.
Qed.




End supervisor_runs.

Lemma attempt_numbers_within_limit_witness :
  Forall (fun n => 1 <= n <= 3)
    (supervisor.connects
       (supervisor.run supervisor.scenario_A supervisor.initial
          [supervisor.ConnectErr; supervisor.ConnectOk; supervisor.ConnLost;
           supervisor.ConnectErr; supervisor.ConnectErr;
           supervisor.ConnectErr; supervisor.ConnectErr]).2).
Proof.
  apply (attempt_numbers_within_limit supervisor.scenario_A).
  split; discriminate.
Defined.

Lemma no_heartbeat_before_connect_witness :
  let res :=
    supervisor.run supervisor.scenario_A supervisor.initial
      [supervisor.ConnectErr; supervisor.ConnectErr] in
  supervisor.pc res.1 <> supervisor.KeepAlive /\
  (supervisor.ActHeartbeat ∉ res.2) /\ (supervisor.ActDisconnect ∉ res.2).
Proof.
  apply (no_heartbeat_before_connect supervisor.scenario_A).
  intros H. repeat (apply elem_of_cons in H as [H|H]; [discriminate|]).
  now apply elem_of_nil in H.
Defined.



(** ** The backoff delays, whatever the outcome of the conversion *)

Section backoff_facts.

Import config supervisor.

Variable r : Reconnect.

(** With a multiplier that converts to an integer of at least 1, an
    initial delay that is not negative and no overflow, the delay never
    decreases from one failure to the next. *)
Theorem backoff_delay_monotone (n : nat) (m : Z) :
  time.Duration_of_float64 (BackoffMultiplier r) = m ->
  1 <= m ->
  0 <= InitialDelay r ->
  (forall i : nat, (i <= S n)%nat ->
     int64.in_range (InitialDelay r * m ^ Z.of_nat i)) ->
  backoff_delay r (Z.of_nat n + 1) <= backoff_delay r (Z.of_nat (S n) + 1).
Proof.
  intros Hm H1 H0 Hfit.
  rewrite (backoff_delay_exact r n m), (backoff_delay_exact r (S n) m);
    try assumption; [|intros i Hi; apply Hfit; lia].
  rewrite Nat2Z.inj_succ, Z.pow_succ_r by lia.
  assert (0 <= m ^ Z.of_nat n) by (apply Z.pow_nonneg; lia).
  apply Z.min_le_compat_r. nia.
Qed.

Lemma backoff_loop_one (n : nat) (d : Z) :
  int64.in_range d -> backoff_loop n 1 d = d.
Proof.
  intros Hd. induction n as [|n IH]; simpl; [reflexivity|].
  now rewrite Z.mul_1_r, wrap64_id.
Qed.

Lemma backoff_loop_zero (n : nat) (d : Z) :
  backoff_loop (S n) 0 d = 0.
Proof.
  revert d. induction n as [|n IH]; intros d.
  - simpl. now rewrite Z.mul_0_r.
  - change (backoff_loop (S (S n)) 0 d)
      with (backoff_loop (S n) 0 (int64.wrap64 (d * 0))).
    apply IH.
Qed.

End backoff_facts.

(** The integer part of a finite number that is not negative. *)
Lemma float64_trunc_floor (f : spec_float) (q : Q) (k : Z) :
  time.float64_to_Q f = Some q ->
  0 <= k ->
  (inject_Z k <= q)%Q -> (q < inject_Z (k + 1))%Q ->
  time.float64_trunc f = Some k.
Proof.
  intros Hf Hk Hlo Hhi.
  destruct f as [s|s| |s p e]; simpl in *; try discriminate.
  - inversion Hf; subst q. f_equal.
    change 0%Q with (inject_Z 0) in Hlo, Hhi.
    rewrite <- Zle_Qle in Hlo. rewrite <- Zlt_Qlt in Hhi. lia.
  - inversion Hf; subst q; clear Hf.
    assert (Hpos : (0 < inject_Z (Z.pos p) * Qpower 2 e)%Q).
    { apply Qmult_lt_0_compat.
      - change 0%Q with (inject_Z 0). rewrite <- Zlt_Qlt. lia.
      - now apply Qpower_0_lt. }
    destruct s.
    { exfalso. apply (Qlt_irrefl 0).
      eapply Qlt_le_trans; [exact Hpos|].
      apply Qopp_le_compat in Hlo. rewrite Qopp_opp in Hlo.
      eapply Qle_trans; [exact Hlo|].
      change 0%Q with (- inject_Z 0)%Q. apply Qopp_le_compat.
      rewrite <- Zle_Qle. lia. }
    f_equal. destruct (Z.leb_spec 0 e) as [He|He].
    + rewrite Qpower_2_pos, <- inject_Z_mult in Hlo, Hhi by lia.
      rewrite <- Zle_Qle in Hlo. rewrite <- Zlt_Qlt in Hhi. lia.
    + set (d := 2 ^ (- e)) in *.
      assert (Hd : 0 < d) by (apply Z.pow_pos_nonneg; lia).
      assert (HD : (0 < inject_Z d)%Q)
        by (change 0%Q with (inject_Z 0); now rewrite <- Zlt_Qlt).
      assert (Hv : (inject_Z (Z.pos p) * Qpower 2 e * inject_Z d
                    == inject_Z (Z.pos p))%Q).
      { rewrite <- Qmult_assoc. unfold d. rewrite Qpower_2_neg by lia. ring. }
      assert (Hlo' : k * d <= Z.pos p).
      { rewrite Zle_Qle, inject_Z_mult, <- Hv.
        apply Qmult_le_compat_r; [exact Hlo|now apply Qlt_le_weak]. }
      assert (Hhi' : Z.pos p < (k + 1) * d).
      { rewrite Zlt_Qlt, inject_Z_mult, <- Hv.
        now apply Qmult_lt_compat_r. }
      symmetry. apply (Z.div_unique_pos _ _ _ (Z.pos p - k * d)); lia.
Qed.

(** A multiplier of at least 1 and below 2, such as 1.5, is converted to
    1: every delay is the initial delay, capped. *)
Theorem multiplier_below_two_gives_constant_delay
    (r : config.Reconnect) (q : Q) (n : Z) :
  time.float64_to_Q (config.BackoffMultiplier r) = Some q ->
  (1 <= q)%Q -> (q < 2)%Q ->
  int64.in_range (config.InitialDelay r) ->
  supervisor.backoff_delay r n
  = Z.min (config.InitialDelay r) (config.MaxDelay r).
Proof.
  intros Hq Hlo Hhi Hr. unfold supervisor.backoff_delay.
  assert (Hm : time.Duration_of_float64 (config.BackoffMultiplier r) = 1).
  { unfold time.Duration_of_float64.
    now rewrite (float64_trunc_floor _ q 1 Hq). }
  rewrite Hm, backoff_loop_one by assumption.
  destruct (Z.gtb_spec (config.InitialDelay r) (config.MaxDelay r)); lia.
Qed.

Lemma multiplier_below_two_gives_constant_delay_witness :
  supervisor.backoff_delay supervisor.policy_fractional 4
  = Z.min (1 * time.Second) (10 * time.Second).
Proof.
  eapply (multiplier_below_two_gives_constant_delay
            supervisor.policy_fractional).
  - reflexivity.
  - vm_compute. discriminate.
  - reflexivity.
  - split; discriminate.
Defined.

(** A multiplier that is not negative and below 1, such as 0.5, is
    converted to 0: from the second failure in a row on, the delay is 0
    (or the maximal delay, if that is negative). *)
Theorem multiplier_below_one_gives_zero_delay
    (r : config.Reconnect) (q : Q) (n : Z) :
  time.float64_to_Q (config.BackoffMultiplier r) = Some q ->
  (0 <= q)%Q -> (q < 1)%Q ->
  2 <= n ->
  supervisor.backoff_delay r n = Z.min 0 (config.MaxDelay r).
Proof.
  intros Hq Hlo Hhi Hn. unfold supervisor.backoff_delay.
  assert (Hm : time.Duration_of_float64 (config.BackoffMultiplier r) = 0).
  { unfold time.Duration_of_float64.
    now rewrite (float64_trunc_floor _ q 0 Hq). }
  rewrite Hm.
  replace (Z.to_nat (n - 1)) with (S (Z.to_nat (n - 2))) by lia.
  rewrite backoff_loop_zero.
  destruct (Z.gtb_spec 0 (config.MaxDelay r)); lia.
Qed.

Lemma multiplier_below_one_gives_zero_delay_witness :
  supervisor.backoff_delay sample_policies.halving 2
  = Z.min 0 (60 * time.Second).
Proof.
  eapply (multiplier_below_one_gives_zero_delay sample_policies.halving).
  - reflexivity.
  - vm_compute. discriminate.
  - reflexivity.
  - lia.
Defined.

Lemma backoff_delay_monotone_witness :
  supervisor.backoff_delay supervisor.scenario_A (Z.of_nat 1 + 1)
  <= supervisor.backoff_delay supervisor.scenario_A (Z.of_nat 2 + 1).
Proof.
  apply (backoff_delay_monotone supervisor.scenario_A 1 2).
  - reflexivity.
  - lia.
  - discriminate.
  - intros i Hi. destruct i as [|[|[|i]]]; [split; discriminate ..|lia].
Defined.

(** ** The transports: the queue and the connection *)

Section tcp_invariants.

Import tcp.

Variable json_Marshal : jsonmap -> result bytes.
Variable json_Unmarshal : bytes -> result jsonmap.

Local Abbreviation SendCommand := (tcp.SendCommand json_Marshal).
Local Abbreviation Connect := (tcp.Connect json_Marshal).
Local Abbreviation handleMessage :=
  (tcp.handleMessage json_Marshal json_Unmarshal).
Local Abbreviation readPump_step :=
  (tcp.readPump_step json_Marshal json_Unmarshal).

(** What [SendCommand] does to a client: nothing, or one element more
    at the end of the queue, which stays within the capacity. *)
Lemma tcp_SendCommand_shape (c : TCPClient) (payload : jsonmap) :
  let c' := (SendCommand c payload).2 in
  connected c' = connected c /\ conn c' = conn c /\
  commandHandler c' = commandHandler c /\
  (sendChan c' = sendChan c \/
   exists d, sendChan c' = sendChan c ++ [d] /\
             (length (sendChan c) < sendChanCap)%nat).
Proof.
  unfold tcp.SendCommand, IsConnected, chan.send_or_timeout.
  destruct (connected c) eqn:Hc; simpl; [|now (rewrite ?Hc; repeat split; auto)].
  destruct (json_Marshal payload) as [d|e]; simpl; [|now (rewrite ?Hc; repeat split; auto)].
  destruct (Nat.ltb_spec (length (sendChan c)) sendChanCap); simpl;
    rewrite ?Hc; [|now (repeat split; auto)].
  repeat split; eauto.
Qed.

Local Ltac tcp_send_case :=
  match goal with
  | |- context [tcp.SendCommand ?m ?c ?p] =>
      let H := fresh in
      pose proof (tcp_SendCommand_shape c p) as H; cbv zeta in H;
      destruct (tcp.SendCommand m c p) as [? ?]; simpl in *;
      destruct H as (? & ? & ? & ?); repeat split; congruence || assumption
  end.

(** Handling an inbound message never touches the connection, the
    connected flag or the handler; the queue is left as it is or gets one
    element more at its end. *)
Lemma tcp_handleMessage_shape (c : TCPClient) (data : bytes) (now : Z) :
  let c' := (handleMessage c data now).1 in
  connected c' = connected c /\ conn c' = conn c /\
  commandHandler c' = commandHandler c /\
  (sendChan c' = sendChan c \/
   exists d, sendChan c' = sendChan c ++ [d] /\
             (length (sendChan c) < sendChanCap)%nat).
Proof.
  unfold tcp.handleMessage. cbv zeta.
  destruct (json_Unmarshal data) as [message|e];
    [|now (simpl; repeat split; auto)].
  destruct (as_string (message !! "type")) as [msgType []];
    repeat (destruct (decide (msgType = _));
            [first [tcp_send_case | now (simpl; repeat split; auto)]|]);
    (destruct (commandHandler c) as [handler|] eqn:Hh;
     [|now (simpl; repeat split; auto)]);
    (destruct (handler message); [|now (simpl; repeat split; auto)]);
    tcp_send_case.
Qed.

Lemma tcp_Connect_shape (c : TCPClient) (dial : result nat)
    (clientID : string) (now : Z) :
  let c' := (Connect c dial clientID now).1.2 in
  commandHandler c' = commandHandler c /\
  (sendChan c' = sendChan c \/
   exists d, sendChan c' = sendChan c ++ [d] /\
             (length (sendChan c) < sendChanCap)%nat).
Proof.
  unfold tcp.Connect. cbv zeta. destruct dial as [h|e]; [|simpl; auto].
  match goal with
  | |- context [tcp.SendCommand ?m ?c0 ?p] =>
      pose proof (tcp_SendCommand_shape c0 p) as H; cbv zeta in H;
      destruct (tcp.SendCommand m c0 p) as [? ?]; simpl in *;
      destruct H as (_ & _ & ? & ?); split; assumption
  end.
Qed.

End tcp_invariants.

Section websocket_invariants.

Import websocket.

Variable json_Marshal : WSMessage -> result bytes.
Variable json_Unmarshal : bytes -> result WSMessage.

Local Abbreviation SendCommand := (websocket.SendCommand json_Marshal).
Local Abbreviation Connect := (websocket.Connect json_Marshal).
Local Abbreviation handleMessage :=
  (websocket.handleMessage json_Marshal json_Unmarshal).

Lemma ws_SendCommand_shape (c : WSClient) (cmdType id : string)
    (payload : value) :
  let c' := (SendCommand c cmdType payload id).2 in
  connected c' = connected c /\ conn c' = conn c /\
  commandHandler c' = commandHandler c /\
  (sendChan c' = sendChan c \/
   exists d, sendChan c' = sendChan c ++ [d] /\
             (length (sendChan c) < sendChanCap)%nat).
Proof.
  unfold websocket.SendCommand, IsConnected, chan.send_or_timeout.
  destruct (connected c) eqn:Hc; simpl;
    [|now (rewrite ?Hc; repeat split; auto)].
  destruct (json_Marshal _) as [d|e]; simpl;
    [|now (rewrite ?Hc; repeat split; auto)].
  destruct (Nat.ltb_spec (length (sendChan c)) sendChanCap); simpl;
    rewrite ?Hc; [|now (repeat split; auto)].
  repeat split; eauto.
Qed.

Local Ltac ws_send_case :=
  match goal with
  | |- context [websocket.SendCommand ?m ?c ?t ?p ?i] =>
      let H := fresh in
      pose proof (ws_SendCommand_shape c t i p) as H; cbv zeta in H;
      destruct (websocket.SendCommand m c t p i) as [? ?]; simpl in *;
      destruct H as (? & ? & ? & ?); repeat split; congruence || assumption
  end.

Lemma ws_handleMessage_shape (c : WSClient) (data : bytes) (now : Z) :
  let c' := (handleMessage c data now).1 in
  connected c' = connected c /\ conn c' = conn c /\
  commandHandler c' = commandHandler c /\
  (sendChan c' = sendChan c \/
   exists d, sendChan c' = sendChan c ++ [d] /\
             (length (sendChan c) < sendChanCap)%nat).
Proof.
  unfold websocket.handleMessage, chan.send_or_timeout. cbv zeta.
  destruct (json_Unmarshal data) as [message|e];
    [|now (simpl; repeat split; auto)].
  repeat (destruct (decide (Type_ message = _));
          [first [ws_send_case | now (simpl; repeat split; auto)]|]).
  destruct (commandHandler c) as [handler|] eqn:Hh;
    [|now (simpl; repeat split; auto)].
  destruct (decide _); [now (simpl; repeat split; auto)|].
  destruct (json_Marshal _) as [d|e]; [|now (simpl; repeat split; auto)].
  destruct (Nat.ltb_spec (length (sendChan c)) sendChanCap); simpl;
    repeat split; eauto.
Qed.

Lemma ws_Connect_shape (c : WSClient) (dial : result nat)
    (clientID : string) (now : Z) :
  let c' := (Connect c dial clientID now).1.2 in
  commandHandler c' = commandHandler c /\
  (sendChan c' = sendChan c \/
   exists d, sendChan c' = sendChan c ++ [d] /\
             (length (sendChan c) < sendChanCap)%nat).
Proof.
  unfold websocket.Connect. cbv zeta. destruct dial as [h|e]; [|simpl; auto].
  match goal with
  | |- context [websocket.SendCommand ?m ?c0 ?t ?p ?i] =>
      pose proof (ws_SendCommand_shape c0 t i p) as H; cbv zeta in H;
      destruct (websocket.SendCommand m c0 t p i) as [? ?]; simpl in *;
      destruct H as (_ & _ & ? & ?); split; assumption
  end.
Qed.

Lemma ws_Disconnect_shape (c : WSClient) (write_ok : bool) :
  let c' := (Disconnect c write_ok).1 in
  connected c' = false /\ sendChan c' = sendChan c /\
  commandHandler c' = commandHandler c.
Proof.
  unfold Disconnect. destruct (connected c) eqn:Hc; simpl;
    [|now rewrite Hc].
  now destruct (conn c).
Qed.

End websocket_invariants.

Lemma queue_extension_bounded {A : Type} (cap : nat) (q q' : list A) :
  (length q <= cap)%nat ->
  (q' = q \/ exists d, q' = q ++ [d] /\ (length q < cap)%nat) ->
  (length q' <= cap)%nat.
Proof.
  intros Hq [->|(d & -> & Hlt)]; [assumption|].
  rewrite length_app. simpl. lia.
Qed.

(** No operation of a transport makes the outbound queue longer than its
    capacity of 256: not [SendCommand], [Connect], [Disconnect], a round of
    the reader (with the handling of the message read) or a round of the
    writer. *)
Theorem outbound_queue_never_exceeds_capacity
    (tcp_Marshal : jsonmap -> result bytes)
    (tcp_Unmarshal : bytes -> result jsonmap)
    (ws_Marshal : websocket.WSMessage -> result bytes)
    (ws_Unmarshal : bytes -> result websocket.WSMessage)
    (tc : tcp.TCPClient) (wc : websocket.WSClient) :
  (length (tcp.sendChan tc) <= 256)%nat ->
  (length (websocket.sendChan wc) <= 256)%nat ->
  (forall payload,
     (length (tcp.sendChan (tcp.SendCommand tcp_Marshal tc payload).2)
      <= 256)%nat) /\
  (forall dial clientID now,
     (length (tcp.sendChan
                (tcp.Connect tcp_Marshal tc dial clientID now).1.2)
      <= 256)%nat) /\
  (length (tcp.sendChan (tcp.Disconnect tc)) <= 256)%nat /\
  (forall rd now,
     (length (tcp.sendChan
                (tcp.readPump_step tcp_Marshal tcp_Unmarshal tc rd now).1.2)
      <= 256)%nat) /\
  (forall w st c' es,
     tcp.writePump_step tc w = Some (st, c', es) ->
     (length (tcp.sendChan c') <= 256)%nat) /\
  (forall cmdType payload id,
     (length (websocket.sendChan
                (websocket.SendCommand ws_Marshal wc cmdType payload id).2)
      <= 256)%nat) /\
  (forall dial clientID now,
     (length (websocket.sendChan
                (websocket.Connect ws_Marshal wc dial clientID now).1.2)
      <= 256)%nat) /\
  (forall w,
     (length (websocket.sendChan (websocket.Disconnect wc w).1)
      <= 256)%nat) /\
  (forall rd now w,
     (length (websocket.sendChan
                (websocket.readPump_step ws_Marshal ws_Unmarshal wc rd now
                   w).1.2)
      <= 256)%nat) /\
  (forall w st c' es,
     websocket.writePump_step wc w = Some (st, c', es) ->
     (length (websocket.sendChan c') <= 256)%nat).
Proof.
  intros Ht Hw.
  assert (Htd : (length (tcp.sendChan (tcp.Disconnect tc)) <= 256)%nat).
  { unfold tcp.Disconnect. now destruct (tcp.connected tc). }
  assert (Hwd : forall w,
            (length (websocket.sendChan (websocket.Disconnect wc w).1)
             <= 256)%nat).
  { intros w. pose proof (ws_Disconnect_shape wc w) as (_ & -> & _).
    exact Hw. }
  repeat split.
  - intros payload.
    apply (queue_extension_bounded _ (tcp.sendChan tc)); [exact Ht|].
    apply tcp_SendCommand_shape.
  - intros dial clientID now.
    apply (queue_extension_bounded _ (tcp.sendChan tc)); [exact Ht|].
    apply tcp_Connect_shape.
  - exact Htd.
  - intros [data|e] now; unfold tcp.readPump_step; [|exact Htd].
    destruct (0 <? length data)%nat; [|exact Ht].
    pose proof (tcp_handleMessage_shape tcp_Marshal tcp_Unmarshal tc data now)
      as (_ & _ & _ & H).
    destruct (tcp.handleMessage _ _ tc data now) as [c' es]; simpl in *.
    now apply (queue_extension_bounded _ (tcp.sendChan tc)).
  - intros w st c' es H.
    destruct (tcp_writePump_step_takes_head _ _ _ _ _ H) as (d & Hq & _).
    rewrite Hq in Ht. simpl in Ht. lia.
  - intros cmdType payload id.
    apply (queue_extension_bounded _ (websocket.sendChan wc)); [exact Hw|].
    apply ws_SendCommand_shape.
  - intros dial clientID now.
    apply (queue_extension_bounded _ (websocket.sendChan wc)); [exact Hw|].
    apply ws_Connect_shape.
  - exact Hwd.
  - intros [data|e] now w; unfold websocket.readPump_step.
    + pose proof (ws_handleMessage_shape ws_Marshal ws_Unmarshal wc data now)
        as (_ & _ & _ & H).
      destruct (websocket.handleMessage _ _ wc data now) as [c' es];
        simpl in *.
      now apply (queue_extension_bounded _ (websocket.sendChan wc)).
    + specialize (Hwd w).
      now destruct (websocket.Disconnect wc w) as [c' es].
  - intros w st c' es H.
    destruct (ws_writePump_step_takes_head _ _ _ _ _ H) as (d & Hq & _).
    rewrite Hq in Hw. simpl in Hw. lia.
Qed.

Lemma outbound_queue_never_exceeds_capacity_witness :
  (length
     (tcp.sendChan
        (tcp.SendCommand sample.tcp_Marshal sample.tcp_saturated
           sample.heartbeat).2) <= 256)%nat.
Proof.
  destruct (outbound_queue_never_exceeds_capacity
              sample.tcp_Marshal sample.tcp_Unmarshal sample.ws_Marshal
              sample.ws_Unmarshal sample.tcp_saturated sample.ws_saturated)
    as (H & _).
  - vm_compute. lia.
  - vm_compute. lia.
  - apply H.
Defined.

(** Nothing that is read from the peer ends the session: after a round
    of the reader that read data, well-formed or not, the reader is still
    running and the client has the same connection, the same connected flag
    and the same handler. *)
Theorem inbound_data_never_ends_session
    (tcp_Marshal : jsonmap -> result bytes)
    (tcp_Unmarshal : bytes -> result jsonmap)
    (ws_Marshal : websocket.WSMessage -> result bytes)
    (ws_Unmarshal : bytes -> result websocket.WSMessage)
    (tc : tcp.TCPClient) (wc : websocket.WSClient)
    (data : bytes) (now : Z) (write_ok : bool) :
  let tres := tcp.readPump_step tcp_Marshal tcp_Unmarshal tc (Ok data) now in
  let wres :=
    websocket.readPump_step ws_Marshal ws_Unmarshal wc (Ok data) now
      write_ok in
  (tres.1.1 = Running /\
   tcp.connected tres.1.2 = tcp.connected tc /\
   tcp.conn tres.1.2 = tcp.conn tc /\
   tcp.commandHandler tres.1.2 = tcp.commandHandler tc) /\
  (wres.1.1 = Running /\
   websocket.connected wres.1.2 = websocket.connected wc /\
   websocket.conn wres.1.2 = websocket.conn wc /\
   websocket.commandHandler wres.1.2 = websocket.commandHandler wc).
Proof.
  cbv zeta. split.
  - unfold tcp.readPump_step.
    destruct (0 <? length data)%nat; [|now repeat split].
    pose proof (tcp_handleMessage_shape tcp_Marshal tcp_Unmarshal tc data now)
      as (H1 & H2 & H3 & _).
    now destruct (tcp.handleMessage _ _ tc data now) as [c' es].
  - unfold websocket.readPump_step.
    pose proof (ws_handleMessage_shape ws_Marshal ws_Unmarshal wc data now)
      as (H1 & H2 & H3 & _).
    now destruct (websocket.handleMessage _ _ wc data now) as [c' es].
Qed.

(** [Disconnect] is idempotent, and on a disconnected client every
    [SendCommand] is refused at once with the not-connected error, nothing
    being added to the queue. *)
Theorem disconnect_is_idempotent_and_refuses_sends
    (tcp_Marshal : jsonmap -> result bytes)
    (ws_Marshal : websocket.WSMessage -> result bytes)
    (tc : tcp.TCPClient) (wc : websocket.WSClient)
    (w w' : bool) (tpayload : jsonmap)
    (cmdType id : string) (wpayload : value) :
  let tc' := tcp.Disconnect tc in
  let wc' := (websocket.Disconnect wc w).1 in
  (tcp.Disconnect tc' = tc' /\
   tcp.IsConnected tc' = false /\
   tcp.sendChan tc' = tcp.sendChan tc /\
   tcp.SendCommand tcp_Marshal tc' tpayload
   = ({| err := Some "TCP not connected"; elapsed := 0 |}, tc')) /\
  (websocket.Disconnect wc' w' = (wc', []) /\
   websocket.IsConnected wc' = false /\
   websocket.sendChan wc' = websocket.sendChan wc /\
   websocket.SendCommand ws_Marshal wc' cmdType wpayload id
   = ({| err := Some "WebSocket not connected"; elapsed := 0 |}, wc')).
Proof.
  cbv zeta. split.
  - assert (Hc : tcp.connected (tcp.Disconnect tc) = false).
    { unfold tcp.Disconnect. now destruct (tcp.connected tc) eqn:E. }
    repeat split.
    + unfold tcp.Disconnect at 1. now rewrite Hc.
    + exact Hc.
    + unfold tcp.Disconnect. now destruct (tcp.connected tc).
    + unfold tcp.SendCommand, tcp.IsConnected. now rewrite Hc.
  - pose proof (ws_Disconnect_shape wc w) as (Hc & Hq & _).
    repeat split.
    + unfold websocket.Disconnect at 1. now rewrite Hc.
    + exact Hc.
    + exact Hq.
    + unfold websocket.SendCommand, websocket.IsConnected. now rewrite Hc.
Qed.

(** ** The writer after a disconnect *)

(** After [Disconnect] nothing more is written on the connection: a
    writer that takes a message from the queue exits without writing it,
    so the message is lost, and a tick of the keepalive writes no ping. *)
Theorem nothing_written_after_disconnect
    (tc tc' : tcp.TCPClient) (wc wc' : websocket.WSClient)
    (w tw ww pw : bool) (tst wst : pump_status)
    (tes : list tcp.effect) (wes : list websocket.effect) :
  tcp.connected tc = true ->
  websocket.connected wc = true ->
  tcp.writePump_step (tcp.Disconnect tc) tw = Some (tst, tc', tes) ->
  websocket.writePump_step (websocket.Disconnect wc w).1 ww
  = Some (wst, wc', wes) ->
  (tst = Exited /\ tes = [] /\
   length (tcp.sendChan tc) = S (length (tcp.sendChan tc'))) /\
  (wst = Exited /\ wes = [] /\
   length (websocket.sendChan wc) = S (length (websocket.sendChan wc'))) /\
  (websocket.pingPump_tick (websocket.Disconnect wc w).1 pw).2 = [].
Proof.
  intros Htc Hwc Ht Hw. repeat split.
  - unfold tcp.writePump_step, tcp.Disconnect, chan.recv in Ht.
    rewrite Htc in Ht. simpl in Ht.
    destruct (tcp.sendChan tc); [discriminate|].
    destruct (tcp.conn tc); simpl in Ht; now inversion Ht.
  - unfold tcp.writePump_step, tcp.Disconnect, chan.recv in Ht.
    rewrite Htc in Ht. simpl in Ht.
    destruct (tcp.sendChan tc); [discriminate|].
    destruct (tcp.conn tc); simpl in Ht; now inversion Ht.
  - unfold tcp.writePump_step, tcp.Disconnect, chan.recv in Ht.
    rewrite Htc in Ht. simpl in Ht.
    destruct (tcp.sendChan tc); [discriminate|].
    destruct (tcp.conn tc); simpl in Ht; now inversion Ht.
  - unfold websocket.writePump_step, websocket.Disconnect, chan.recv in Hw.
    rewrite Hwc in Hw. simpl in Hw.
    destruct (websocket.conn wc); simpl in Hw;
      (destruct (websocket.sendChan wc); [discriminate|]);
      simpl in Hw; now inversion Hw.
  - unfold websocket.writePump_step, websocket.Disconnect, chan.recv in Hw.
    rewrite Hwc in Hw. simpl in Hw.
    destruct (websocket.conn wc); simpl in Hw;
      (destruct (websocket.sendChan wc); [discriminate|]);
      simpl in Hw; now inversion Hw.
  - unfold websocket.writePump_step, websocket.Disconnect, chan.recv in Hw.
    rewrite Hwc in Hw. simpl in Hw.
    destruct (websocket.conn wc); simpl in Hw;
      (destruct (websocket.sendChan wc); [discriminate|]);
      simpl in Hw; now inversion Hw.
  - pose proof (ws_Disconnect_shape wc w) as (Hc & _).
    unfold websocket.pingPump_tick, websocket.IsConnected. now rewrite Hc.
Qed.

Lemma nothing_written_after_disconnect_witness :
  (websocket.pingPump_tick
     (websocket.Disconnect sample.ws_connected true).1 true).2 = [].
Proof.
  eapply (nothing_written_after_disconnect
            sample.tcp_connected _ sample.ws_connected _ true true true true).
  - reflexivity.
  - reflexivity.
  - reflexivity.
  - reflexivity.
Defined.

(** ** Command processing: what reaches the executors *)

Section executor_calls.

Import config client.

Variable cfg : Config.
Variable apiClient_ExecuteAPICall :
  string -> string -> option (gmap string string) -> value ->
  result proxy.APIResponse.
Variable apiClient_ExecuteHTTPRequest :
  string -> string -> option (gmap string string) -> value ->
  result proxy.APIResponse.
Variable localClient_ExecuteCommand :
  local.LocalCommand -> result LocalResult.
Variable time_ParseDuration : string -> result Z.

Local Abbreviation handleAPICall :=
  (handleAPICall apiClient_ExecuteAPICall).
Local Abbreviation handleHTTPRequest :=
  (handleHTTPRequest apiClient_ExecuteHTTPRequest).
Local Abbreviation handleSSHCommand :=
  (handleSSHCommand localClient_ExecuteCommand time_ParseDuration).
Local Abbreviation handleQuickCommand :=
  (handleQuickCommand cfg apiClient_ExecuteAPICall
     apiClient_ExecuteHTTPRequest localClient_ExecuteCommand
     time_ParseDuration).
Local Abbreviation processCommand :=
  (processCommand cfg apiClient_ExecuteAPICall
     apiClient_ExecuteHTTPRequest localClient_ExecuteCommand
     time_ParseDuration).

Lemma calls_ok_nil : calls_ok [].
Proof. split; [simpl; lia|constructor]. Qed.

Lemma handleAPICall_calls (command : Command.t) :
  calls_ok (handleAPICall command).2.
Proof.
  unfold client.handleAPICall.
  destruct (as_map _); [|apply calls_ok_nil].
  assert (forall url m h b, m <> "" ->
            calls_ok [ExecuteAPICall url m h b]) as Hone.
  { intros. split; [simpl; lia|]. now repeat constructor. }
  destruct (decide _) as [E|E]; destruct (apiClient_ExecuteAPICall _ _ _ _);
    simpl; apply Hone; (discriminate || exact E).
Qed.

Lemma handleHTTPRequest_calls (command : Command.t) :
  calls_ok (handleHTTPRequest command).2.
Proof.
  unfold client.handleHTTPRequest.
  destruct (as_map _); [|apply calls_ok_nil].
  assert (forall url m h b, m <> "" ->
            calls_ok [ExecuteHTTPRequest url m h b]) as Hone.
  { intros. split; [simpl; lia|]. now repeat constructor. }
  destruct (decide _) as [E|E];
    destruct (apiClient_ExecuteHTTPRequest _ _ _ _);
    simpl; apply Hone; (discriminate || exact E).
Qed.

Lemma handleSSHCommand_calls (command : Command.t) :
  calls_ok (handleSSHCommand command).2.
Proof.
  unfold client.handleSSHCommand.
  destruct (as_map _); [|apply calls_ok_nil].
  destruct (decide _) as [E|E]; [apply calls_ok_nil|].
  destruct (localClient_ExecuteCommand _); simpl;
    (split; [simpl; lia|now repeat constructor]).
Qed.

Lemma handleQuickCommand_calls (command : Command.t) :
  calls_ok (handleQuickCommand command).2.
Proof.
  unfold client.handleQuickCommand.
  repeat (case_match; try apply calls_ok_nil);
    auto using handleAPICall_calls, handleHTTPRequest_calls,
      handleSSHCommand_calls.
Qed.

(** Whatever the command, [processCommand] calls at most one executor;
    it never calls one with an empty HTTP method or an empty shell command,
    and it calls none unless the type of the command is [api_call],
    [http_request], [ssh_command] or [quick_command]. *)
Theorem processCommand_executor_calls (command : Command.t) :
  let calls := (processCommand command).2 in
  (length calls <= 1)%nat /\
  Forall call_well_formed calls /\
  (calls = [] \/ executing_type (Command.Type_ command)).
Proof.
  cbv zeta.
  assert (Hok : calls_ok (processCommand command).2).
  { unfold client.processCommand.
    repeat (case_match; try apply calls_ok_nil);
      auto using handleAPICall_calls, handleHTTPRequest_calls,
        handleSSHCommand_calls, handleQuickCommand_calls. }
  destruct Hok as [H1 H2]. repeat split; try assumption.
  unfold client.processCommand, executing_type.
  repeat (destruct (decide (Command.Type_ command = _)); [tauto|]).
  now left.
Qed.

(** The caller of a quick command chooses the template by its name and
    nothing else: two requests with the same name and the same ID get the
    same treatment, whatever else their payloads hold. *)
Theorem quick_command_ignores_caller_fields
    (t1 t2 id : string) (p1 p2 : jsonmap) :
  p1 !! "command" = p2 !! "command" ->
  handleQuickCommand
    {| Command.Type_ := t1; Command.Payload := Map p1; Command.ID := id |}
  = handleQuickCommand
      {| Command.Type_ := t2; Command.Payload := Map p2; Command.ID := id |}.
Proof.
  intros H. unfold client.handleQuickCommand. simpl. now rewrite H.
Qed.

(** A quick command resolves to [api_call], [http_request] or
    [ssh_command] only: a template of any other type, [quick_command] and
    [custom] among them, is refused without any executor being called. *)
Theorem quick_command_targets_only_executors
    (command : Command.t) (payload template : jsonmap) (name t : string) :
  Command.Payload command = Map payload ->
  payload !! "command" = Some (Str name) ->
  QuickCommands cfg !! name = Some (Map template) ->
  template !! "type" = Some (Str t) ->
  ~ quick_target t ->
  handleQuickCommand command
  = (fail command ("Unsupported quick command type: " +:+ t), []).
Proof.
  intros Hp Hn Hq Ht Hno. unfold client.handleQuickCommand.
  rewrite Hp. simpl. rewrite Hn. simpl. rewrite Hq. simpl. rewrite Ht. simpl.
  unfold quick_target in Hno.
  repeat (destruct (decide (t = _)); [tauto|]). reflexivity.
Qed.

(** The string-valued entries of a map, and nothing else. *)
Lemma string_entries_map (m : jsonmap) :
  exists hs : gmap string string,
    string_entries (Some (Map m)) = Some hs /\
    forall (k s : string), hs !! k = Some s <-> m !! k = Some (Str s).
Proof.
  eexists. split; [reflexivity|]. intros k s. rewrite lookup_omap.
  destruct (m !! k) as [[]|]; simpl; split; congruence.
Qed.

(** What the executors are handed.  [handleAPICall] and
    [handleHTTPRequest] call their executor once, with the URL, the method
    (the default when none is given), the body, and for headers exactly the
    string-valued entries of the [headers] map of the payload, values
    unchanged; the response is made from what the executor returns for
    these arguments.  [handleSSHCommand] calls the shell executor once with
    the command, and for environment exactly the string-valued entries of
    the [env] map.  Entries whose value is not a string are not handed
    over. *)
Theorem executors_receive_string_entries
    (command : Command.t) (payload m : jsonmap) :
  Command.Payload command = Map payload ->
  let url := (as_string (payload !! "url")).1 in
  let method := (as_string (payload !! "method")).1 in
  let body := default Nil (payload !! "body") in
  let post := if decide (method = "") then "POST" else method in
  let get := if decide (method = "") then "GET" else method in
  (payload !! "headers" = Some (Map m) ->
   exists hs : gmap string string,
     (forall (k s : string), hs !! k = Some s <-> m !! k = Some (Str s)) /\
     handleAPICall command
     = (match apiClient_ExecuteAPICall url post (Some hs) body with
        | Err e => fail command ("API call failed 1: " +:+ e)
        | Ok r => of_APIResponse command r
        end,
        [ExecuteAPICall url post (Some hs) body]) /\
     handleHTTPRequest command
     = (match apiClient_ExecuteHTTPRequest url get (Some hs) body with
        | Err e => fail command ("HTTP request failed: " +:+ e)
        | Ok r => of_APIResponse command r
        end,
        [ExecuteHTTPRequest url get (Some hs) body])) /\
  (payload !! "env" = Some (Map m) ->
   (as_string (payload !! "command")).1 <> "" ->
   exists (env : gmap string string) (cmd : local.LocalCommand),
     (forall (k s : string), env !! k = Some s <-> m !! k = Some (Str s)) /\
     local.Command cmd = (as_string (payload !! "command")).1 /\
     local.Env cmd = Some env /\
     local.WorkDir cmd = (as_string (payload !! "work_dir")).1 /\
     (handleSSHCommand command).2 = [ExecuteCommand cmd] /\
     (handleSSHCommand command).1
     = match localClient_ExecuteCommand cmd with
       | Err e => fail command ("Command execution failed: " +:+ e)
       | Ok r =>
           {| CommandResponse.ID := Command.ID command;
              CommandResponse.Success := bool_decide (ExitCode r = 0);
              CommandResponse.Data := LocalResultPtr r;
              CommandResponse.Error := "" |}
       end).
Proof.
  intros Hp. cbv zeta. split.
  - intros Hh. destruct (string_entries_map m) as (hs & Hs & Hl).
    exists hs. split; [exact Hl|].
    unfold client.handleAPICall, client.handleHTTPRequest.
    rewrite Hp. simpl. rewrite Hh, Hs.
    split.
    + now destruct (apiClient_ExecuteAPICall _ _ _ _).
    + now destruct (apiClient_ExecuteHTTPRequest _ _ _ _).
  - intros He Hc. destruct (string_entries_map m) as (env & Hs & Hl).
    unfold client.handleSSHCommand. rewrite Hp. simpl.
    destruct (decide _) as [E|_]; [contradiction|].
    rewrite He, Hs. eexists env, _.
    split; [exact Hl|].
    split; [|split; [|split; [|split]]];
      [| | |now destruct (localClient_ExecuteCommand _)
           |now destruct (localClient_ExecuteCommand _)]; reflexivity.
Qed.

End executor_calls.

Lemma quick_command_ignores_caller_fields_witness :
  client.handleQuickCommand sample.cfg_ssh_disabled sample_clients.no_api
    sample_clients.no_api sample_clients.no_shell sample_clients.no_duration
    {| Command.Type_ := "quick_command";
       Command.Payload :=
         Map (<["command" := Str "cleanup"]>
               (<["args" := Str "--force"]> ∅));
       Command.ID := "9" |}
  = client.handleQuickCommand sample.cfg_ssh_disabled sample_clients.no_api
      sample_clients.no_api sample_clients.no_shell
      sample_clients.no_duration
      {| Command.Type_ := "quick_command";
         Command.Payload := Map (<["command" := Str "cleanup"]> ∅);
         Command.ID := "9" |}.
Proof.
  apply (quick_command_ignores_caller_fields sample.cfg_ssh_disabled).
  reflexivity.
Defined.

Lemma executors_receive_string_entries_witness :
  exists hs : gmap string string,
    (forall (k s : string),
       hs !! k = Some s
       <-> (<["Accept" := Str "text/plain"]> (<["Retries" := Int 3]> ∅)
              : jsonmap) !! k = Some (Str s)) /\
    (client.handleAPICall sample_clients.no_api
       {| Command.Type_ := "api_call";
          Command.Payload :=
            Map (<["url" := Str "http://hub.local/cells"]>
                  (<["headers" :=
                       Map (<["Accept" := Str "text/plain"]>
                             (<["Retries" := Int 3]> ∅))]> ∅));
          Command.ID := "3" |}).2
    = [client.ExecuteAPICall "http://hub.local/cells" "POST" (Some hs) Nil].
Proof.
  destruct (executors_receive_string_entries
              sample_clients.no_api sample_clients.no_api
              sample_clients.no_shell sample_clients.no_duration
              {| Command.Type_ := "api_call";
                 Command.Payload :=
                   Map (<["url" := Str "http://hub.local/cells"]>
                         (<["headers" :=
                              Map (<["Accept" := Str "text/plain"]>
                                    (<["Retries" := Int 3]> ∅))]> ∅));
                 Command.ID := "3" |}
              (<["url" := Str "http://hub.local/cells"]>
                (<["headers" :=
                     Map (<["Accept" := Str "text/plain"]>
                           (<["Retries" := Int 3]> ∅))]> ∅))
              (<["Accept" := Str "text/plain"]> (<["Retries" := Int 3]> ∅))
              eq_refl) as [H _].
  destruct (H eq_refl) as (hs & Hl & Ha & _).
  exists hs. split; [exact Hl|]. rewrite Ha. reflexivity.
Defined.

(** ** The facade: start, stop, statistics *)

Section facade_facts.

Import facade.

Variable apiClient_ExecuteAPICall :
  string -> string -> option (gmap string string) -> value ->
  result proxy.APIResponse.
Variable apiClient_ExecuteHTTPRequest :
  string -> string -> option (gmap string string) -> value ->
  result proxy.APIResponse.
Variable localClient_ExecuteCommand :
  local.LocalCommand -> result LocalResult.
Variable time_ParseDuration : string -> result Z.

Local Abbreviation Start :=
  (facade.Start apiClient_ExecuteAPICall apiClient_ExecuteHTTPRequest
     localClient_ExecuteCommand time_ParseDuration).
Local Abbreviation handleTCPCommand :=
  (facade.handleTCPCommand apiClient_ExecuteAPICall
     apiClient_ExecuteHTTPRequest localClient_ExecuteCommand
     time_ParseDuration).
Local Abbreviation handleWebSocketCommand :=
  (facade.handleWebSocketCommand apiClient_ExecuteAPICall
     apiClient_ExecuteHTTPRequest localClient_ExecuteCommand
     time_ParseDuration).

Lemma Start_running (c : Client) : running (Start c).1.2 = true.
Proof.
  unfold facade.Start. destruct (running c) eqn:Hr; [exact Hr|].
  repeat case_match; reflexivity.
Qed.

Lemma Stop_not_running (c : Client) (w : bool) : running (Stop c w) = false.
Proof. unfold Stop. now destruct (running c) eqn:Hr. Qed.

(** A client that has been started refuses to be started again and is
    left as it is; stopping twice is stopping once; a stopped client can be
    started again. *)
Theorem start_guard_and_stop_idempotent (c : Client) (w w' : bool) :
  let started := (Start c).1.2 in
  let stopped := Stop c w in
  Start started = (Some "client is already running", started, false) /\
  Stop stopped w' = stopped /\
  (Start stopped).1.1 = None /\
  running (Start stopped).1.2 = true.
Proof.
  cbv zeta. repeat split.
  - unfold facade.Start at 1. now rewrite Start_running.
  - unfold Stop at 1. now rewrite Stop_not_running.
  - unfold facade.Start. rewrite Stop_not_running.
    repeat case_match; reflexivity.
  - apply Start_running.
Qed.

(** After [Stop] on a running client the statistics report a client that
    is neither running nor connected, whichever transport it uses. *)
Theorem stats_after_stop (c : Client) (w : bool) :
  running c = true ->
  GetStats (Stop c w) !! "running" = Some (Bool false) /\
  GetStats (Stop c w) !! "connected" = Some (Bool false).
Proof.
  intros Hr. unfold GetStats, Stop. rewrite Hr. simpl.
  split; [now simplify_map_eq|].
  rewrite !lookup_insert_ne by discriminate. rewrite lookup_insert_eq.
  do 2 f_equal.
  destruct (decide (protocol c = "tcp")).
  - destruct (tcpClient c) as [t|]; [|reflexivity].
    unfold tcp.IsConnected, tcp.Disconnect.
    now destruct (tcp.connected t) eqn:E.
  - destruct (wsClient c) as [ws|]; [|reflexivity].
    unfold websocket.IsConnected.
    now pose proof (ws_Disconnect_shape ws w) as (-> & _).
Qed.

(** A new client has the transport of the configured protocol and no
    other, and none at all when the connection is disabled; [Start]
    installs the command handler on that transport and launches the
    supervisor loop only when the connection is enabled. *)
Theorem new_client_has_selected_transport_only
    (ws : WebSocket) (cfg : config.Config) :
  let c := NewClient ws cfg in
  let res := Start c in
  res.1.1 = None /\ res.2 = Enabled ws /\
  match Enabled ws, decide (Protocol ws = "tcp") with
  | false, _ =>
      tcpClient c = None /\ wsClient c = None /\
      tcpClient res.1.2 = None /\ wsClient res.1.2 = None
  | true, left _ =>
      tcpClient c = Some tcp.NewTCPClient /\ wsClient c = None /\
      wsClient res.1.2 = None /\
      exists t, tcpClient res.1.2 = Some t /\
                tcp.commandHandler t
                = Some (fun m => Some (handleTCPCommand cfg m).1) /\
                tcp.connected t = false /\ tcp.sendChan t = []
  | true, right _ =>
      wsClient c = Some websocket.NewWSClient /\ tcpClient c = None /\
      tcpClient res.1.2 = None /\
      exists s, wsClient res.1.2 = Some s /\
                websocket.commandHandler s
                = Some (fun m => (handleWebSocketCommand cfg m).1) /\
                websocket.connected s = false /\ websocket.sendChan s = []
  end.
Proof.
  cbv zeta. unfold facade.Start, NewClient. simpl.
  destruct (Enabled ws); simpl; [|now repeat split].
  destruct (decide (Protocol ws = "tcp")) as [E|E].
  - rewrite (bool_decide_eq_true_2 _ E). simpl.
    repeat split. eexists. now repeat split.
  - rewrite (bool_decide_eq_false_2 _ E). simpl.
    repeat split. eexists. now repeat split.
Qed.

End facade_facts.

(** ** From an inbound command to its response *)

Section command_pipeline.

Variable cfg : config.Config.
Variable apiClient_ExecuteAPICall :
  string -> string -> option (gmap string string) -> value ->
  result proxy.APIResponse.
Variable apiClient_ExecuteHTTPRequest :
  string -> string -> option (gmap string string) -> value ->
  result proxy.APIResponse.
Variable localClient_ExecuteCommand :
  local.LocalCommand -> result LocalResult.
Variable time_ParseDuration : string -> result Z.

Local Abbreviation processCommand :=
  (facade.processCommand apiClient_ExecuteAPICall
     apiClient_ExecuteHTTPRequest localClient_ExecuteCommand
     time_ParseDuration cfg).
Local Abbreviation handleTCPCommand :=
  (facade.handleTCPCommand apiClient_ExecuteAPICall
     apiClient_ExecuteHTTPRequest localClient_ExecuteCommand
     time_ParseDuration cfg).
Local Abbreviation handleWebSocketCommand :=
  (facade.handleWebSocketCommand apiClient_ExecuteAPICall
     apiClient_ExecuteHTTPRequest localClient_ExecuteCommand
     time_ParseDuration cfg).

Lemma processCommand_keeps_ID (command : Command.t) :
  CommandResponse.ID (processCommand command).1 = Command.ID command.
Proof.
  unfold facade.processCommand, client.processCommand.
  repeat (case_match; try reflexivity);
    auto using handleAPICall_ID, handleHTTPRequest_ID, handleSSHCommand_ID,
      handleQuickCommand_ID.
Qed.

(** The envelope that the TCP handler of the client returns. *)
Lemma handleTCPCommand_envelope (message : jsonmap) :
  let response := (handleTCPCommand message).1 in
  response !! "type" = Some (Str "command_response") /\
  response !! "id" = Some (Str (as_string (message !! "id")).1) /\
  is_Some (response !! "payload").
Proof.
  unfold facade.handleTCPCommand. cbv zeta.
  match goal with
  | |- context [facade.processCommand ?a ?b ?c ?d ?e ?cmd] =>
      pose proof (processCommand_keeps_ID cmd) as HID;
      destruct (facade.processCommand a b c d e cmd) as [response calls]
  end.
  simpl in *. repeat split.
  - rewrite !lookup_insert_ne by discriminate. rewrite lookup_insert_eq.
    now rewrite HID.
  - rewrite lookup_insert_ne by discriminate. rewrite lookup_insert_eq.
    eauto.
Qed.

(** A command of a type that reaches no executor is answered without any
    executor being called. *)
Lemma processCommand_no_executor (command : Command.t) :
  ~ executing_type (Command.Type_ command) ->
  (processCommand command).2 = [].
Proof.
  unfold executing_type, facade.processCommand, client.processCommand.
  intros H.
  repeat (destruct (decide (Command.Type_ command = _));
          [tauto || reflexivity|]).
  reflexivity.
Qed.

(** With the handlers that [Start] installs, on a connected client whose
    queue has room: an inbound frame that decodes to an envelope not of a
    system type is handed to the handler once, and the one
    [command_response] made from what [processCommand] returns for it,
    which carries the correlation id of the envelope, is appended to the
    outbound queue, the send reporting no error (provided the response can
    be encoded).  The response of a command whose type reaches an executor
    is made from what that executor returns; for every other type no
    executor is called. *)
Theorem command_response_enqueued_with_command_id
    (tcp_Marshal : jsonmap -> result bytes)
    (tcp_Unmarshal : bytes -> result jsonmap)
    (ws_Marshal : websocket.WSMessage -> result bytes)
    (ws_Unmarshal : bytes -> result websocket.WSMessage)
    (tc : tcp.TCPClient) (wc : websocket.WSClient)
    (tdata wdata td wd : bytes) (now : Z)
    (tmessage : jsonmap) (wmessage : websocket.WSMessage)
    (msgType X : string) :
  ~ system_type msgType ->
  tcp.connected tc = true ->
  (length (tcp.sendChan tc) < tcp.sendChanCap)%nat ->
  tcp.commandHandler tc = Some (fun m => Some (handleTCPCommand m).1) ->
  tcp_Unmarshal tdata = Ok tmessage ->
  tmessage !! "type" = Some (Str msgType) ->
  tmessage !! "id" = Some (Str X) ->
  tcp_Marshal (handleTCPCommand tmessage).1 = Ok td ->
  (length (websocket.sendChan wc) < websocket.sendChanCap)%nat ->
  websocket.commandHandler wc
  = Some (fun m => (handleWebSocketCommand m).1) ->
  ws_Unmarshal wdata = Ok wmessage ->
  websocket.Type_ wmessage = msgType ->
  ws_Marshal (handleWebSocketCommand wmessage).1 = Ok wd ->
  tcp.handleMessage tcp_Marshal tcp_Unmarshal tc tdata now
  = ({| tcp.conn := tcp.conn tc; tcp.connected := tcp.connected tc;
        tcp.sendChan := tcp.sendChan tc ++ [td];
        tcp.commandHandler := tcp.commandHandler tc |},
     [tcp.HandlerCall tmessage;
      tcp.SendCall (handleTCPCommand tmessage).1 None]) /\
  (handleTCPCommand tmessage).1 !! "type" = Some (Str "command_response") /\
  (handleTCPCommand tmessage).1 !! "id" = Some (Str X) /\
  websocket.handleMessage ws_Marshal ws_Unmarshal wc wdata now
  = (websocket.with_sendChan wc (websocket.sendChan wc ++ [wd]),
     [websocket.HandlerCall wmessage;
      websocket.SendCall (handleWebSocketCommand wmessage).1 None]) /\
  websocket.Type_ (handleWebSocketCommand wmessage).1 = "command_response" /\
  websocket.ID (handleWebSocketCommand wmessage).1 = websocket.ID wmessage /\
  (~ executing_type msgType ->
   (handleTCPCommand tmessage).2 = [] /\
   (handleWebSocketCommand wmessage).2 = []).
Proof.
  intros Hsys Htc Htl Hth Htd Htt Hti Htm Hwl Hwh Hwd Hwt Hwm.
  unfold system_type in Hsys.
  destruct (handleTCPCommand_envelope tmessage) as (H1 & H2 & _).
  rewrite Hti in H2. simpl in H2.
  assert (Ht : websocket.Type_ (handleWebSocketCommand wmessage).1
               = "command_response" /\
               websocket.ID (handleWebSocketCommand wmessage).1
               = websocket.ID wmessage).
  { unfold facade.handleWebSocketCommand.
    now destruct (facade.processCommand _ _ _ _ _ _). }
  destruct Ht as [Ht1 Ht2].
  split; [|split; [exact H1|split; [exact H2|split;
            [|split; [exact Ht1|split; [exact Ht2|]]]]]].
  - unfold tcp.handleMessage. rewrite Htd, Htt. simpl.
    repeat (destruct (decide (msgType = _)); [tauto|]).
    rewrite Hth.
    rewrite (tcp_SendCommand_room tcp_Marshal tc _ td Htc Htm Htl).
    now rewrite Hth.
  - unfold websocket.handleMessage. rewrite Hwd, Hwt.
    repeat (destruct (decide (msgType = _)); [tauto|]).
    rewrite Hwh. cbv zeta.
    destruct (decide _) as [E|_]; [rewrite Ht1 in E; discriminate|].
    rewrite Hwm. unfold chan.send_or_timeout.
    now destruct (Nat.ltb_spec (length (websocket.sendChan wc))
                    websocket.sendChanCap); [|lia].
  - intros Hne. split.
    + unfold facade.handleTCPCommand. cbv zeta.
      match goal with
      | |- context [facade.processCommand ?a ?b ?c ?d ?e ?cmd] =>
          pose proof (processCommand_no_executor cmd) as Hn;
          destruct (facade.processCommand a b c d e cmd) as [response calls]
      end.
      simpl in *. apply Hn. now rewrite Htt.
    + unfold facade.handleWebSocketCommand. cbv zeta.
      match goal with
      | |- context [facade.processCommand ?a ?b ?c ?d ?e ?cmd] =>
          pose proof (processCommand_no_executor cmd) as Hn;
          destruct (facade.processCommand a b c d e cmd) as [response calls]
      end.
      simpl in *. apply Hn. now rewrite Hwt.
Qed.

End command_pipeline.

(** A reply of the handler on a client that is no longer connected: the
    TCP transport refuses it with the not-connected error and enqueues
    nothing, while the WebSocket transport, which enqueues such a reply
    without looking at the connected flag, puts it in the queue. *)
Theorem handler_reply_on_disconnected_client
    (tcp_Marshal : jsonmap -> result bytes)
    (tcp_Unmarshal : bytes -> result jsonmap)
    (ws_Marshal : websocket.WSMessage -> result bytes)
    (ws_Unmarshal : bytes -> result websocket.WSMessage)
    (tc : tcp.TCPClient) (wc : websocket.WSClient)
    (th : jsonmap -> option jsonmap)
    (wh : websocket.WSMessage -> websocket.WSMessage)
    (tdata wdata d : bytes) (now : Z)
    (tmessage tresponse : jsonmap) (wmessage : websocket.WSMessage)
    (msgType : string) :
  ~ system_type msgType ->
  tcp.connected tc = false ->
  tcp.commandHandler tc = Some th ->
  tcp_Unmarshal tdata = Ok tmessage ->
  tmessage !! "type" = Some (Str msgType) ->
  th tmessage = Some tresponse ->
  websocket.connected wc = false ->
  websocket.commandHandler wc = Some wh ->
  ws_Unmarshal wdata = Ok wmessage ->
  websocket.Type_ wmessage = msgType ->
  websocket.Type_ (wh wmessage) <> "" ->
  ws_Marshal (wh wmessage) = Ok d ->
  (length (websocket.sendChan wc) < websocket.sendChanCap)%nat ->
  tcp.handleMessage tcp_Marshal tcp_Unmarshal tc tdata now
  = (tc, [tcp.HandlerCall tmessage;
          tcp.SendCall tresponse (Some "TCP not connected")]) /\
  websocket.handleMessage ws_Marshal ws_Unmarshal wc wdata now
  = (websocket.with_sendChan wc (websocket.sendChan wc ++ [d]),
     [websocket.HandlerCall wmessage;
      websocket.SendCall (wh wmessage) None]).
Proof.
  intros Hsys Htc Hth Htd Htt Hr Hwc Hwh Hwd Hwt Hne Hwm Hlen.
  unfold system_type in Hsys. split.
  - unfold tcp.handleMessage. rewrite Htd, Htt. simpl.
    repeat (destruct (decide (msgType = _)); [tauto|]).
    rewrite Hth, Hr. unfold tcp.SendCommand, tcp.IsConnected.
    now rewrite Htc.
  - unfold websocket.handleMessage. rewrite Hwd, Hwt.
    repeat (destruct (decide (msgType = _)); [tauto|]).
    rewrite Hwh. cbv zeta.
    destruct (decide _) as [E|_]; [contradiction|].
    rewrite Hwm. unfold chan.send_or_timeout.
    now destruct (Nat.ltb_spec (length (websocket.sendChan wc))
                    websocket.sendChanCap); [|lia].
Qed.

Lemma command_response_enqueued_with_command_id_witness :
  tcp.sendChan
    (tcp.handleMessage sample.tcp_Marshal sample.tcp_Unmarshal
       sample_sessions.tcp_serving (list_byte_of_string "custom")
       1700000030).1
  = tcp.sendChan sample_sessions.tcp_serving
    ++ [list_byte_of_string "command_response"].
Proof.
  destruct (command_response_enqueued_with_command_id
              sample.cfg_ssh_disabled sample_clients.no_api
              sample_clients.no_api sample_clients.no_shell
              sample_clients.no_duration
              sample.tcp_Marshal sample.tcp_Unmarshal
              sample.ws_Marshal sample.ws_Unmarshal
              sample_sessions.tcp_serving sample_sessions.ws_serving
              (list_byte_of_string "custom") (list_byte_of_string "custom")
              (list_byte_of_string "command_response")
              (list_byte_of_string "command_response") 1700000030
              (<["type" := Str "custom"]> (<["id" := Str "7"]> ∅))
              {| websocket.Type_ := "custom"; websocket.Payload := Nil;
                 websocket.ID := "7" |}
              "custom" "7") as [H _].
  - intros [H|[H|H]]; discriminate H.
  - reflexivity.
  - vm_compute. lia.
  - reflexivity.
  - reflexivity.
  - reflexivity.
  - reflexivity.
  - reflexivity.
  - vm_compute. lia.
  - reflexivity.
  - reflexivity.
  - reflexivity.
  - reflexivity.
  - rewrite H. reflexivity.
Defined.

Lemma handler_reply_on_disconnected_client_witness :
  websocket.handleMessage sample.ws_Marshal sample.ws_Unmarshal
    sample_clients.ws_stopped (list_byte_of_string "custom") 1700000030
  = (websocket.with_sendChan sample_clients.ws_stopped
       (websocket.sendChan sample_clients.ws_stopped
        ++ [list_byte_of_string "custom"]),
     [websocket.HandlerCall
        {| websocket.Type_ := "custom"; websocket.Payload := Nil;
           websocket.ID := "7" |};
      websocket.SendCall
        {| websocket.Type_ := "custom"; websocket.Payload := Nil;
           websocket.ID := "7" |} None]).
Proof.
  destruct (handler_reply_on_disconnected_client
              sample.tcp_Marshal sample.tcp_Unmarshal
              sample.ws_Marshal sample.ws_Unmarshal
              sample_clients.tcp_stopped sample_clients.ws_stopped
              (fun m => Some m) (fun m => m)
              (list_byte_of_string "custom") (list_byte_of_string "custom")
              (list_byte_of_string "custom") 1700000030
              (<["type" := Str "custom"]> (<["id" := Str "7"]> ∅))
              (<["type" := Str "custom"]> (<["id" := Str "7"]> ∅))
              {| websocket.Type_ := "custom"; websocket.Payload := Nil;
                 websocket.ID := "7" |}
              "custom") as [_ H].
  - intros [H|[H|H]]; discriminate H.
  - reflexivity.
  - reflexivity.
  - reflexivity.
  - reflexivity.
  - reflexivity.
  - reflexivity.
  - reflexivity.
  - reflexivity.
  - reflexivity.
  - discriminate.
  - reflexivity.
  - vm_compute. lia.
  - exact H.
Defined.

Lemma stats_after_stop_witness :
  facade.GetStats (facade.Stop sample_sessions.running_client true)
    !! "running" = Some (Bool false) /\
  facade.GetStats (facade.Stop sample_sessions.running_client true)
    !! "connected" = Some (Bool false).
Proof.
  apply (stats_after_stop sample_sessions.running_client true).
  reflexivity.
Defined.

Lemma quick_command_targets_only_executors_witness :
  client.handleQuickCommand
    {| config.QuickCommands :=
         <["again" := Map (<["type" := Str "quick_command"]> ∅)]> ∅;
       config.EnabledCommands :=
         config.EnabledCommands sample.cfg_ssh_disabled |}
    sample_clients.no_api sample_clients.no_api sample_clients.no_shell
    sample_clients.no_duration
    {| Command.Type_ := "quick_command";
       Command.Payload := Map (<["command" := Str "again"]> ∅);
       Command.ID := "3" |}
  = (client.fail
       {| Command.Type_ := "quick_command";
          Command.Payload := Map (<["command" := Str "again"]> ∅);
          Command.ID := "3" |}
       ("Unsupported quick command type: " +:+ "quick_command"), []).
Proof.
  apply (quick_command_targets_only_executors _ sample_clients.no_api
           sample_clients.no_api sample_clients.no_shell
           sample_clients.no_duration _
           (<["command" := Str "again"]> ∅)
           (<["type" := Str "quick_command"]> ∅) "again" "quick_command").
  - reflexivity.
  - reflexivity.
  - reflexivity.
  - reflexivity.
  - intros [H|[H|H]]; discriminate H.
Defined.

Lemma processCommand_disabled_witness :
  client.processCommand sample.cfg_ssh_disabled sample_clients.no_api
    sample_clients.no_api sample_clients.no_shell sample_clients.no_duration
    {| Command.Type_ := "ssh_command";
       Command.Payload := Map (<["command" := Str "uptime"]> ∅);
       Command.ID := "4" |}
  = (client.fail
       {| Command.Type_ := "ssh_command";
          Command.Payload := Map (<["command" := Str "uptime"]> ∅);
          Command.ID := "4" |}
       (client.disabled_message "ssh_command"), []).
Proof.
  apply (processCommand_disabled sample.cfg_ssh_disabled sample_clients.no_api
           sample_clients.no_api sample_clients.no_shell
           sample_clients.no_duration).
  reflexivity.
Defined.

Lemma ws_ping_enqueued_witness :
  let pong :=
    {| websocket.Type_ := "pong";
       websocket.Payload := Map (<["timestamp" := Int 1700000030]> ∅);
       websocket.ID := "7" |} in
  let res :=
    websocket.handleMessage sample.ws_Marshal sample.ws_Unmarshal
      sample.ws_connected (list_byte_of_string "ping") 1700000030 in
  res.2 = [websocket.SendCall pong None] /\
  websocket.sendChan res.1
  = websocket.sendChan sample.ws_connected ++ [list_byte_of_string "pong"] /\
  websocket.handler_calls res.2 = [].
Proof.
  apply (ws_ping_enqueued sample.ws_Marshal sample.ws_Unmarshal
           sample.ws_connected (list_byte_of_string "ping")
           (list_byte_of_string "pong") 1700000030
           {| websocket.Type_ := "ping"; websocket.Payload := Nil;
              websocket.ID := "7" |}).
  - reflexivity.
  - reflexivity.
  - reflexivity.
  - vm_compute. lia.
  - reflexivity.
Defined.

(** ** The first connection *)

(** When the queue is empty at [Connect], as on a new client, the
    identification is alone in the queue and is the first thing the writer
    writes on the new connection. *)
Theorem identification_first_on_empty_queue
    (tcp_Marshal : jsonmap -> result bytes)
    (ws_Marshal : websocket.WSMessage -> result bytes)
    (tc : tcp.TCPClient) (wc : websocket.WSClient)
    (h : nat) (clientID : string) (now : Z) (td wd : bytes) :
  tcp.sendChan tc = [] ->
  websocket.sendChan wc = [] ->
  tcp_Marshal (tcp.identification clientID now) = Ok td ->
  ws_Marshal
    {| websocket.Type_ := "identification";
       websocket.Payload := websocket.identification clientID now;
       websocket.ID := "init" |} = Ok wd ->
  let tc' := (tcp.Connect tcp_Marshal tc (Ok h) clientID now).1.2 in
  let wc' := (websocket.Connect ws_Marshal wc (Ok h) clientID now).1.2 in
  (tcp.connected tc' = true /\ tcp.sendChan tc' = [td] /\
   exists c, tcp.writePump_step tc' true
             = Some (Running, c, [tcp.Wrote h td])) /\
  (websocket.connected wc' = true /\ websocket.sendChan wc' = [wd] /\
   exists c, websocket.writePump_step wc' true
             = Some (Running, c,
                     [websocket.Wrote h (websocket.TextMessage wd)])).
Proof.
  intros Htq Hwq Htm Hwm. cbv zeta. split.
  - unfold tcp.Connect, tcp.SendCommand, tcp.IsConnected,
      chan.send_or_timeout. simpl. rewrite Htm, Htq. simpl.
    repeat split. unfold tcp.writePump_step. simpl. eauto.
  - unfold websocket.Connect, websocket.SendCommand, websocket.IsConnected,
      chan.send_or_timeout. simpl. rewrite Hwm, Hwq. simpl.
    repeat split. unfold websocket.writePump_step. simpl. eauto.
Qed.

Lemma identification_first_on_empty_queue_witness :
  tcp.sendChan
    (tcp.Connect sample.tcp_Marshal tcp.NewTCPClient (Ok 1%nat) "edge-1"
       1700000000).1.2
  = [list_byte_of_string "identify"].
Proof.
  destruct (identification_first_on_empty_queue
              sample.tcp_Marshal sample.ws_Marshal tcp.NewTCPClient
              websocket.NewWSClient 1 "edge-1" 1700000000
              (list_byte_of_string "identify")
              (list_byte_of_string "identification"))
    as ((_ & H & _) & _).
  - reflexivity.
  - reflexivity.
  - reflexivity.
  - reflexivity.
  - exact H.
Defined.

(** ** Local commands *)

Section local_commands.

Variable sh :
  string -> option (gmap string string) -> string -> local_exec.process.
Variable time_ParseDuration : string -> result Z.

Local Abbreviation handleSSHCommand :=
  (client.handleSSHCommand (local_exec.ExecuteCommand sh) time_ParseDuration).

Lemma ExecuteCommand_ignores_timeout (c w : string)
    (e : option (gmap string string)) (t1 t2 : Z) :
  local_exec.ExecuteCommand sh
    {| local.Command := c; local.Env := e; local.WorkDir := w;
       local.Timeout := t1 |}
  = local_exec.ExecuteCommand sh
      {| local.Command := c; local.Env := e; local.WorkDir := w;
         local.Timeout := t2 |}.
Proof.
  unfold local_exec.ExecuteCommand, local_exec.with_default_timeout. simpl.
  destruct (t1 =? 0), (t2 =? 0); reflexivity.
Qed.

(** The timeout of an [ssh_command] is parsed and handed over, but never
    enforced: whatever value the payload gives for it, valid or not, the
    response is the same as without it. *)
Theorem ssh_timeout_is_never_enforced
    (type id : string) (payload : jsonmap) (timeout : value) :
  (handleSSHCommand
     {| Command.Type_ := type;
        Command.Payload := Map (<["timeout" := timeout]> payload);
        Command.ID := id |}).1
  = (handleSSHCommand
       {| Command.Type_ := type;
          Command.Payload := Map (delete "timeout" payload);
          Command.ID := id |}).1.
Proof.
  unfold client.handleSSHCommand. simpl.
  rewrite !lookup_insert_ne, !lookup_delete_ne by discriminate.
  destruct (decide _); [reflexivity|].
  rewrite lookup_insert_eq, lookup_delete_eq.
  match goal with
  | |- context [local_exec.ExecuteCommand sh
                  {| local.Command := ?c; local.Env := ?e;
                     local.WorkDir := ?w; local.Timeout := ?t |}] =>
      rewrite (ExecuteCommand_ignores_timeout c w e t 0)
  end.
  now destruct (local_exec.ExecuteCommand sh _).
Qed.

(** The outcome of a local command as the client reports it: a process
    that cannot be started, or a context that is done first, gives
    [success:false] with the error of the executor; a process that ends
    gives [success] exactly when its exit code is 0, with an empty error. *)
Theorem ssh_command_outcome (command : Command.t) (payload : jsonmap)
    (commandStr : string) :
  Command.Payload command = Map payload ->
  payload !! "command" = Some (Str commandStr) ->
  commandStr <> "" ->
  let p :=
    sh commandStr
      (local_exec.process_env (client.string_entries (payload !! "env")))
      (as_string (payload !! "work_dir")).1 in
  let response := (handleSSHCommand command).1 in
  match local_exec.start_error p with
  | Some e =>
      response
      = client.fail command
          ("Command execution failed: failed to start command: " +:+ e)
  | None =>
      if local_exec.ctx_done p then
        response
        = client.fail command "Command execution failed: command timed out"
      else
        CommandResponse.Error response = "" /\
        CommandResponse.Success response
        = match local_exec.wait p with
          | None => true
          | Some (local_exec.ExitError code) => bool_decide (code = 0)
          | Some (local_exec.OtherError _) => false
          end
  end.
Proof.
  intros Hp Hc Hne. cbv zeta. unfold client.handleSSHCommand.
  rewrite Hp. simpl. rewrite Hc. simpl.
  destruct (decide (commandStr = "")); [contradiction|].
  unfold local_exec.ExecuteCommand.
  assert (Hw : forall cmd,
            local.Command (local_exec.with_default_timeout cmd)
            = local.Command cmd /\
            local.Env (local_exec.with_default_timeout cmd) = local.Env cmd /\
            local.WorkDir (local_exec.with_default_timeout cmd)
            = local.WorkDir cmd).
  { intros cmd. unfold local_exec.with_default_timeout.
    now destruct (local.Timeout cmd =? 0). }
  match goal with
  | |- context [local_exec.with_default_timeout ?cmd] =>
      destruct (Hw cmd) as (-> & -> & ->)
  end.
  simpl.
  destruct (local_exec.start_error _); [reflexivity|].
  destruct (local_exec.ctx_done _); [reflexivity|].
  simpl. split; [reflexivity|].
  now destruct (local_exec.wait _) as [[]|].
Qed.

End local_commands.

Lemma ssh_command_outcome_witness :
  CommandResponse.Success
    (client.handleSSHCommand
       (local_exec.ExecuteCommand local_exec.echo_shell)
       sample_clients.no_duration
       {| Command.Type_ := "ssh_command";
          Command.Payload := Map (<["command" := Str "uptime"]> ∅);
          Command.ID := "6" |}).1
  = true.
Proof.
  refine (proj2 _).
  apply (ssh_command_outcome local_exec.echo_shell sample_clients.no_duration
           {| Command.Type_ := "ssh_command";
              Command.Payload := Map (<["command" := Str "uptime"]> ∅);
              Command.ID := "6" |}
           (<["command" := Str "uptime"]> ∅) "uptime").
  - reflexivity.
  - reflexivity.
  - discriminate.
Defined.

(** ** Reconnection keeps the handler *)

(** The command handler is installed once: a disconnect followed by a
    new connect leaves it in place, and the client is connected again, on
    the new connection. *)
Theorem reconnect_keeps_handler
    (tcp_Marshal : jsonmap -> result bytes)
    (ws_Marshal : websocket.WSMessage -> result bytes)
    (tc : tcp.TCPClient) (wc : websocket.WSClient)
    (w : bool) (h : nat) (clientID : string) (now : Z) :
  let tc' :=
    (tcp.Connect tcp_Marshal (tcp.Disconnect tc) (Ok h) clientID now).1.2 in
  let wc' :=
    (websocket.Connect ws_Marshal (websocket.Disconnect wc w).1 (Ok h)
       clientID now).1.2 in
  (tcp.commandHandler tc' = tcp.commandHandler tc /\
   tcp.connected tc' = true /\
   tcp.conn tc' = Some {| tcp.handle := h; tcp.closed := false |}) /\
  (websocket.commandHandler wc' = websocket.commandHandler wc /\
   websocket.connected wc' = true /\
   websocket.conn wc'
   = Some {| websocket.handle := h; websocket.closed := false |}).
Proof.
  cbv zeta. split.
  - unfold tcp.Connect.
    match goal with
    | |- context [tcp.SendCommand ?m ?c0 ?p] =>
        pose proof (tcp_SendCommand_shape m c0 p) as H; cbv zeta in H;
        destruct (tcp.SendCommand m c0 p) as [o c1]; simpl in *;
        destruct H as (H1 & H2 & H3 & _)
    end.
    repeat split; try assumption.
    rewrite H3. unfold tcp.Disconnect. now destruct (tcp.connected tc).
  - unfold websocket.Connect.
    match goal with
    | |- context [websocket.SendCommand ?m ?c0 ?t ?p ?i] =>
        pose proof (ws_SendCommand_shape m c0 t i p) as H; cbv zeta in H;
        destruct (websocket.SendCommand m c0 t p i) as [o c1]; simpl in *;
        destruct H as (H1 & H2 & H3 & _)
    end.
    repeat split; try assumption.
    rewrite H3. now pose proof (ws_Disconnect_shape wc w) as (_ & _ & ->).
Qed.
